(** * The cosigner wait dialog of Rutanio-Electrum

    A shallow embedding of [electrum/gui/qt/transaction_wait_dialog.py]:
    the countdown and lock-polling logic of [TimeoutWaitDialog] and of
    [show_timeout_wait_dialog].

    Python integers are [Z]; the values exchanged with the cosigner pool
    server are the small universe [pyval]; calls that may raise return an
    [outcome]; the mutable dialog object and the module-level [dialogs]
    list are passed explicitly as a [Session].

    Strings are byte strings and stand for ASCII text; text outside
    ASCII is not modelled, and a statement that depends on what [int()]
    makes of a string asks for an ASCII string.

    Left out: the widgets themselves (the layout built by the
    constructor, the texts other than the two modelled below), the plugin
    hooks [run_hook], and the attributes only they use ([tx], [desc],
    [saved], [prompt_if_unsaved], [main_window], [wallet]).  None of them
    writes an attribute that the countdown, the poll or the closing
    reads.  The wallet, the transaction and the main window are taken to
    answer the label refresh without raising. *)

From Stdlib Require Import ZArith List String Ascii Bool Lia Permutation.
From Stdlib Require DecimalString DecimalN DecimalPos.
Import ListNotations.

Open Scope Z_scope.
Open Scope string_scope.

(** ** Python values and exceptions *)

Module Py.

(** What [server.get] and [server.get_current_time] hand back: [None],
    a string, or an integer. *)
Inductive pyval : Type :=
| VNone
| VStr (s : string)
| VInt (z : Z).

(** Python truthiness, as used by [if lock:], [if expire:], [if name:]. *)
Definition truthy (v : pyval) : bool :=
  match v with
  | VNone => false
  | VStr s => negb (s =? EmptyString)%string
  | VInt z => negb (z =? 0)%Z
  end.

(** Exception classes that occur. [SerializationError] is the one the
    source names; [ValueError] and [TypeError] are what [int()] raises;
    [StoreUnavailableError] and [KeyDerivationError] stand for failures
    of the store read and of the key derivation. *)
Inductive exn_class : Type :=
| SerializationError
| StoreUnavailableError
| KeyDerivationError
| ValueError
| TypeError
| OtherError (name : string).

Record exn : Type := mk_exn { exn_cls : exn_class; exn_msg : string }.

(** [str(e)] *)
Definition str_exn (e : exn) : string := exn_msg e.

Definition is_SerializationError (e : exn) : bool :=
  match exn_cls e with SerializationError => true | _ => false end.

Inductive outcome (A : Type) : Type :=
| Ok (a : A)
| Raised (e : exn).
Arguments Ok {A} a.
Arguments Raised {A} e.

Definition bind {A B : Type} (m : outcome A) (k : A -> outcome B) : outcome B :=
  match m with
  | Ok a => k a
  | Raised e => Raised e
  end.

(** *** [int(x)] for the values above *)

(** The white space [int()] strips from both ends of an ASCII string:
    tab, line feed, vertical tab, form feed, carriage return, space. *)
Definition is_space (c : ascii) : bool :=
  let n := nat_of_ascii c in
  (((9 <=? n) && (n <=? 13)) || (n =? 32))%nat.

Definition digit_of (c : ascii) : option Z :=
  let n := nat_of_ascii c in
  if ((48 <=? n) && (n <=? 57))%nat then Some (Z.of_nat n - 48) else None.

Fixpoint lstrip (s : string) : string :=
  match s with
  | String c r => if is_space c then lstrip r else s
  | EmptyString => EmptyString
  end.

Definition rev_string (s : string) : string :=
  string_of_list_ascii (rev (list_ascii_of_string s)).

Definition strip (s : string) : string :=
  rev_string (lstrip (rev_string (lstrip s))).

(** Decimal digits, single underscores allowed between two digits. *)
Fixpoint digits_value (s : string) (acc : Z) (after_digit : bool) : option Z :=
  match s with
  | EmptyString => if after_digit then Some acc else None
  | String c r =>
      match digit_of c with
      | Some d => digits_value r (10 * acc + d) true
      | None =>
          if (Ascii.eqb c "_" && after_digit)%bool
          then digits_value r acc false
          else None
      end
  end.

Definition int_of_string (s : string) : option Z :=
  match strip s with
  | String "-" r => option_map Z.opp (digits_value r 0 false)
  | String "+" r => digits_value r 0 false
  | r => digits_value r 0 false
  end.

(** *** [repr(s)] for an ASCII string, as it appears in messages *)

Definition backslash : ascii := ascii_of_nat 92.
Definition squote : ascii := ascii_of_nat 39.
Definition dquote : ascii := ascii_of_nat 34.

Definition hex_digit (n : nat) : ascii :=
  if (n <? 10)%nat then ascii_of_nat (48 + n) else ascii_of_nat (87 + n).

Definition repr_char (quote c : ascii) : string :=
  let n := nat_of_ascii c in
  if (Ascii.eqb c quote || Ascii.eqb c backslash)%bool
  then String backslash (String c EmptyString)
  else if (n =? 9)%nat then String backslash "t"
  else if (n =? 10)%nat then String backslash "n"
  else if (n =? 13)%nat then String backslash "r"
  else if ((n <? 32) || (n =? 127))%nat
  then String backslash
         (String "x" (String (hex_digit (n / 16)) (String (hex_digit (n mod 16)) EmptyString)))
  else String c EmptyString.

Fixpoint repr_body (quote : ascii) (s : string) : string :=
  match s with
  | EmptyString => EmptyString
  | String c r => repr_char quote c ++ repr_body quote r
  end.

Definition contains (c : ascii) (s : string) : bool :=
  existsb (Ascii.eqb c) (list_ascii_of_string s).

(** Single quotes, unless the string holds a single quote and no double
    quote. *)
Definition py_repr (s : string) : string :=
  let quote := if (contains squote s && negb (contains dquote s))%bool
               then dquote else squote in
  String quote (repr_body quote s ++ String quote EmptyString).

(** The message of the [ValueError] of [int(s)]: the literal is shown
    through [repr], cut at 200 characters. *)
Definition invalid_literal (s : string) : exn :=
  mk_exn ValueError
    ("invalid literal for int() with base 10: " ++ substring 0 200 (py_repr s)).

(** [int(v)].  The [TypeError] for [None] is worded as Python 3.6 to 3.9
    word it. *)
Definition py_int (v : pyval) : outcome Z :=
  match v with
  | VInt z => Ok z
  | VStr s =>
      match int_of_string s with
      | Some z => Ok z
      | None => Raised (invalid_literal s)
      end
  | VNone => Raised (mk_exn TypeError "int() argument must be a string, a bytes-like object or a number, not 'NoneType'")
  end.

(** ASCII text. *)
Definition is_ascii (s : string) : bool :=
  forallb (fun c => (nat_of_ascii c <? 128)%nat) (list_ascii_of_string s).

Definition ascii_value (v : pyval) : Prop :=
  match v with
  | VStr s => is_ascii s = true
  | _ => True
  end.

End Py.
Import Py.

Notation "x <- m ;; k" := (bind m (fun x => k))
  (at level 61, m at next level, right associativity).


(** ** The collaborators: store, keystores, wallet, transaction *)

(** The cosigner pool server, as seen during one handler run: [get] is
    [server.get(key)], [get_current_time] is [server.get_current_time()].
    Either may raise.  Each handler run (the constructor, one timer tick)
    is given the store as it stands at that moment; different runs may
    be given different stores. *)
Record Server : Type := mk_server {
  get : string -> outcome pyval;
  get_current_time : outcome pyval
}.

(** A keystore of the wallet.  [ks_hash] is the value of
    [bh2u(crypto.sha256d(BIP32Node.from_xkey(xpub).eckey.get_public_key_bytes(compressed=True)))]
    for its master public key (or the exception raised on the way);
    [is_watching_only] is [keystore.is_watching_only()]. *)
Record Keystore : Type := mk_keystore {
  ks_hash : outcome string;
  is_watching_only : bool
}.

Inductive wallet_class : Type := Multisig_Wallet | Other_Wallet.

(** [keystores] is [wallet.keystores.items()] in iteration order. *)
Record Wallet : Type := mk_wallet {
  wallet_type : wallet_class;
  keystores : list (string * Keystore)
}.

(** The transaction handle: what [tx.deserialize()] does on the copy. *)
Record Transaction : Type := mk_tx {
  tx_raw : string;
  deserialize : outcome unit
}.

(** ** The dialog object and the module state *)

Definition DURATION_INT : Z := 60 * 10.

(** The attributes of a [TimeoutWaitDialog] that its logic reads or
    writes.  [self_id] is the identity of the object ([dialogs.remove]
    compares by identity), [my_qtimer] says whether the one-second
    [QTimer] is running, [visible] is Qt's [isVisible()].  [locks] is a
    dict in insertion order; [keyhashes] and [cosigner_list] are sets,
    listed without repetition. *)
Record TimeoutWaitDialog : Type := mk_dialog {
  self_id : nat;
  locks : list (string * pyval);
  currently_signing : pyval;
  timed_out : bool;
  keyhashes : list string;
  cosigner_list : list string;
  time_left_int : Z;
  my_qtimer : bool;
  visible : bool
}.

Definition set_time_left_int (t : Z) (d : TimeoutWaitDialog) : TimeoutWaitDialog :=
  mk_dialog (self_id d) (locks d) (currently_signing d) (timed_out d)
            (keyhashes d) (cosigner_list d) t (my_qtimer d) (visible d).

Definition set_timed_out (b : bool) (d : TimeoutWaitDialog) : TimeoutWaitDialog :=
  mk_dialog (self_id d) (locks d) (currently_signing d) b
            (keyhashes d) (cosigner_list d) (time_left_int d) (my_qtimer d) (visible d).

Definition set_my_qtimer (b : bool) (d : TimeoutWaitDialog) : TimeoutWaitDialog :=
  mk_dialog (self_id d) (locks d) (currently_signing d) (timed_out d)
            (keyhashes d) (cosigner_list d) (time_left_int d) b (visible d).

Definition set_visible (b : bool) (d : TimeoutWaitDialog) : TimeoutWaitDialog :=
  mk_dialog (self_id d) (locks d) (currently_signing d) (timed_out d)
            (keyhashes d) (cosigner_list d) (time_left_int d) (my_qtimer d) b.

(** A dialog together with the module-level list [dialogs] (object
    identities, in order). *)
Record Session : Type := mk_session {
  dlg : TimeoutWaitDialog;
  dialogs : list nat
}.

(** *** Python containers *)

(** [d[k] = v] on a dict kept in insertion order. *)
Fixpoint dict_set (k : string) (v : pyval) (d : list (string * pyval)) : list (string * pyval) :=
  match d with
  | [] => [(k, v)]
  | (k', v') :: r => if (k' =? k)%string then (k, v) :: r else (k', v') :: dict_set k v r
  end.

(** [s.add(x)] on a set. *)
Fixpoint set_add (x : string) (s : list string) : list string :=
  match s with
  | [] => [x]
  | y :: r => if (y =? x)%string then s else y :: set_add x r
  end.

(** [l.remove(x)]: drops the first occurrence, [None] where Python
    raises [ValueError]. *)
Fixpoint list_remove (x : nat) (l : list nat) : option (list nat) :=
  match l with
  | [] => None
  | y :: r => if (y =? x)%nat then Some r
              else option_map (cons y) (list_remove x r)
  end.

(** ** Qt: closing and showing a widget *)

(** [closeEvent]: the event is accepted and the dialog leaves [dialogs];
    the [ValueError] of a dialog that is not listed is swallowed. *)
Definition closeEvent (s : Session) : Session :=
  match list_remove (self_id (dlg s)) (dialogs s) with
  | Some l => mk_session (dlg s) l
  | None => s
  end.

(** [QWidget.close()]: the close event is delivered whether or not the
    widget is on screen; as [closeEvent] accepts it, the widget is
    hidden.  The timer is left alone. *)
Definition close (s : Session) : Session :=
  let s1 := closeEvent s in
  mk_session (set_visible false (dlg s1)) (dialogs s1).

(** [reject]: the escape key closes normally. *)
Definition reject (s : Session) : Session := close s.

(** [QWidget.show()] *)
Definition show (d : TimeoutWaitDialog) : TimeoutWaitDialog := set_visible true d.

(** ** [TimeoutWaitDialog.update] *)

(** The loop of [update] over [cosigner_list]: every lock key is read,
    [lock_present] becomes [True] at the first truthy one and stays. *)
Fixpoint poll_locks (srv : Server) (hashes : list string) (lock_present : bool) : outcome bool :=
  match hashes with
  | [] => Ok lock_present
  | h :: r =>
      lock <- get srv (h ++ "_lock") ;;
      poll_locks srv r (if truthy lock then true else lock_present)
  end.

(** [update], up to the refresh of the labels (which reads the wallet
    and the transaction and writes only widgets).  The result pairs the
    session as the call leaves it with how the call ended. *)
Definition update (srv : Server) (s : Session) : Session * outcome unit :=
  if (time_left_int (dlg s) mod 10 =? 0)%Z then
    match poll_locks srv (cosigner_list (dlg s)) false with
    | Raised e => (s, Raised e)
    | Ok lock_present =>
        if negb lock_present
        then (close (mk_session (set_time_left_int 0 (dlg s)) (dialogs s)), Ok tt)
        else (s, Ok tt)
    end
  else (s, Ok tt).

(** *** The label refresh that ends [update] *)

(** [desc = self.currently_signing or "Information unavailable"] *)
Definition desc (d : TimeoutWaitDialog) : pyval :=
  if truthy (currently_signing d) then currently_signing d
  else VStr "Information unavailable".

(** What [update] does with [tx_desc]: [None] when the label is hidden
    ([desc is None]), the text it is given otherwise.  Adding a value
    that is not a string to ["Currently Signing: "] raises
    [TypeError]. *)
(** The [TypeError] of [str + int], worded as Python 3.7 and later word
    it. *)
Definition concat_type_error : exn :=
  mk_exn TypeError
    ("can only concatenate str (not " ++ String dquote "int" ++ String dquote ") to str").

Definition tx_desc_text (d : TimeoutWaitDialog) : outcome (option string) :=
  match desc d with
  | VNone => Ok None
  | VStr text => Ok (Some ("Currently Signing" ++ ": " ++ text))
  | VInt _ => Raised concat_type_error
  end.

(** The refresh of the labels, as far as the dialog's own attributes
    decide how it ends: it raises where the description cannot be
    built. *)
Definition refresh_labels (d : TimeoutWaitDialog) : outcome unit :=
  match tx_desc_text d with
  | Ok _ => Ok tt
  | Raised e => Raised e
  end.

(** The whole of [update]: the poll, then the label refresh.  [update]
    above is its first part, lines 191-199. *)
Definition update_with_labels (srv : Server) (s : Session) : Session * outcome unit :=
  match update srv s with
  | (s', Ok _) => (s', refresh_labels (dlg s'))
  | (s', Raised e) => (s', Raised e)
  end.

(** ** [TimeoutWaitDialog.timer_timeout], the slot of the one-second timer

    The slot ends with the poll of [update]; the label refresh that
    follows cannot fail in a session the constructor has handed out (its
    name is [None] or a string, see [reachable_labels]), and
    [timer_timeout_with_labels] below adds it for the other sessions. *)
Definition timer_timeout (srv : Server) (s : Session) : Session * outcome unit :=
  let s1 := mk_session (set_time_left_int (time_left_int (dlg s) - 1) (dlg s)) (dialogs s) in
  let s2 :=
    if ((time_left_int (dlg s1) =? 0)%Z && visible (dlg s1))%bool
    then close (mk_session (set_timed_out true (dlg s1)) (dialogs s1))
    else s1 in
  update srv s2.

(** The slot with the label refresh. *)
Definition timer_timeout_with_labels (srv : Server) (s : Session) : Session * outcome unit :=
  match timer_timeout srv s with
  | (s', Ok _) => (s', refresh_labels (dlg s'))
  | (s', Raised e) => (s', Raised e)
  end.

(** [timer_start]: the timer is created and started, then [update]. *)
Definition timer_start (srv : Server) (s : Session) : Session * outcome unit :=
  update_with_labels srv (mk_session (set_my_qtimer true (dlg s)) (dialogs s)).

(** ** [TimeoutWaitDialog.__init__] *)

(** What the loop over the keystores accumulates. *)
Record Scan : Type := mk_scan {
  sc_keyhashes : list string;
  sc_cosigner_list : list string;
  sc_locks : list (string * pyval);
  sc_currently_signing : pyval
}.

Definition scan_init : Scan := mk_scan [] [] [] VNone.

(** The loop [for key, keystore in self.wallet.keystores.items()]. *)
Fixpoint scan_keystores (srv : Server) (ks : list (string * Keystore)) (acc : Scan) : outcome Scan :=
  match ks with
  | [] => Ok acc
  | (_, keystore) :: r =>
      _hash <- ks_hash keystore ;;
      if negb (is_watching_only keystore) then
        scan_keystores srv r
          (mk_scan (set_add _hash (sc_keyhashes acc)) (sc_cosigner_list acc)
                   (sc_locks acc) (sc_currently_signing acc))
      else
        lock <- get srv (_hash ++ "_lock") ;;
        let acc1 := mk_scan (sc_keyhashes acc) (set_add _hash (sc_cosigner_list acc))
                            (dict_set _hash lock (sc_locks acc)) (sc_currently_signing acc) in
        if truthy lock then
          name <- get srv (_hash ++ "_name") ;;
          scan_keystores srv r
            (if truthy name
             then mk_scan (sc_keyhashes acc1) (sc_cosigner_list acc1) (sc_locks acc1) name
             else acc1)
        else scan_keystores srv r acc1
  end.

(** The loop [for _hash, expire in self.locks.items()] that seeds
    [time_left_int]; [cur] is the value held so far. *)
Fixpoint seed_time_left (srv : Server) (items : list (string * pyval)) (cur : Z) : outcome Z :=
  match items with
  | [] => Ok cur
  | (_, expire) :: r =>
      if truthy expire then
        now <- get_current_time srv ;;
        n <- py_int now ;;
        e <- py_int expire ;;
        seed_time_left srv r (DURATION_INT - (n - e))
      else seed_time_left srv r cur
  end.

(** The attributes as they stand when [timer_start] is reached: the
    scan of the keystores (only for a [Multisig_Wallet]) and the seed of
    the countdown.  A failure of [deserialize] is re-raised as
    [SerializationError(e)]. *)
Definition init_fields (srv : Server) (tx : Transaction) (wallet : Wallet) (self : nat)
  : outcome TimeoutWaitDialog :=
  match deserialize tx with
  | Raised e => Raised (mk_exn SerializationError (str_exn e))
  | Ok _ =>
      sc <- match wallet_type wallet with
            | Multisig_Wallet => scan_keystores srv (keystores wallet) scan_init
            | Other_Wallet => Ok scan_init
            end ;;
      t <- seed_time_left srv (sc_locks sc) DURATION_INT ;;
      Ok (mk_dialog self (sc_locks sc) (sc_currently_signing sc) false
                    (sc_keyhashes sc) (sc_cosigner_list sc) t false false)
  end.

(** The constructor: the attributes, then [self.timer_start()] and
    [self.update()].  [reg] is [dialogs] on entry; the result gives
    [dialogs] on exit and the new object, or the exception raised. *)
Definition init (srv : Server) (tx : Transaction) (wallet : Wallet) (self : nat) (reg : list nat)
  : list nat * outcome TimeoutWaitDialog :=
  match init_fields srv tx wallet self with
  | Raised e => (reg, Raised e)
  | Ok d0 =>
      match timer_start srv (mk_session d0 reg) with
      | (s1, Raised e) => (dialogs s1, Raised e)
      | (s1, Ok _) =>
          match update_with_labels srv s1 with
          | (s2, Raised e) => (dialogs s2, Raised e)
          | (s2, Ok _) => (dialogs s2, Ok (dlg s2))
          end
      end
  end.

(** The constructor when the store changes while it runs: [srv0] is the
    store during the scan of the keystores and the seeding, [srv1] during
    the [update] of [timer_start], [srv2] during the final [update]. *)
Definition init_with (srv0 srv1 srv2 : Server) (tx : Transaction) (wallet : Wallet)
  (self : nat) (reg : list nat) : list nat * outcome TimeoutWaitDialog :=
  match init_fields srv0 tx wallet self with
  | Raised e => (reg, Raised e)
  | Ok d0 =>
      match timer_start srv1 (mk_session d0 reg) with
      | (s1, Raised e) => (dialogs s1, Raised e)
      | (s1, Ok _) =>
          match update_with_labels srv2 s1 with
          | (s2, Raised e) => (dialogs s2, Raised e)
          | (s2, Ok _) => (dialogs s2, Ok (dlg s2))
          end
      end
  end.

(** ** [show_timeout_wait_dialog] *)

Definition newline : string := String (ascii_of_nat 10) EmptyString.

(** What a call leaves behind: [dialogs], the text given to
    [parent.show_critical] if it was called, and the return value
    ([None] or the dialog) or the exception that escapes. *)
Record ShowResult : Type := mk_show {
  sr_dialogs : list nat;
  sr_critical : option string;
  sr_return : outcome (option TimeoutWaitDialog)
}.

Definition show_timeout_wait_dialog (srv : Server) (tx : Transaction) (wallet : Wallet)
  (self : nat) (reg : list nat) : ShowResult :=
  match init srv tx wallet self reg with
  | (reg1, Raised e) =>
      if is_SerializationError e
      then mk_show reg1
             (Some ("Rutanio-Electrum was unable to deserialize the transaction:"
                      ++ newline ++ str_exn e))
             (Ok None)
      else mk_show reg1 None (Raised e)
  | (reg1, Ok d) =>
      mk_show (reg1 ++ [self_id d]) None (Ok (Some (show d)))
  end.

(** [show_timeout_wait_dialog] when the store changes while the
    constructor runs, as for [init_with]. *)
Definition show_with (srv0 srv1 srv2 : Server) (tx : Transaction) (wallet : Wallet)
  (self : nat) (reg : list nat) : ShowResult :=
  match init_with srv0 srv1 srv2 tx wallet self reg with
  | (reg1, Raised e) =>
      if is_SerializationError e
      then mk_show reg1
             (Some ("Rutanio-Electrum was unable to deserialize the transaction:"
                      ++ newline ++ str_exn e))
             (Ok None)
      else mk_show reg1 None (Raised e)
  | (reg1, Ok d) =>
      mk_show (reg1 ++ [self_id d]) None (Ok (Some (show d)))
  end.

(** The session a successful call hands to its caller. *)
Definition session_of (r : ShowResult) : option Session :=
  match sr_return r with
  | Ok (Some d) => Some (mk_session d (sr_dialogs r))
  | _ => None
  end.

(** ** Running the timer *)

(** The timer fires once per store in [srvs], in order; an exception
    that leaves the slot does not stop the timer. *)
Fixpoint run_ticks (srvs : list Server) (s : Session) : Session :=
  match srvs with
  | [] => s
  | srv :: r => run_ticks r (fst (timer_timeout srv s))
  end.

(** What can happen to a session after it is handed out: the timer
    fires (with the store as it stands then), or the dialog is closed. *)
Inductive event : Type :=
| Tick (srv : Server)
| Close.

Fixpoint run_events (evs : list event) (s : Session) : Session :=
  match evs with
  | [] => s
  | Tick srv :: r => run_events r (fst (timer_timeout srv s))
  | Close :: r => run_events r (close s)
  end.

(** ** The state of a session

    The source keeps no state variable; the four states are read off the
    attributes.  A session is [Active] while its dialog is on screen or
    listed in [dialogs].  A closed one is [TimedOut] when [timed_out] was
    set, [Completed] when it was closed with the countdown at 0, and
    [Cancelled] otherwise. *)
Inductive terminal_state : Type := Active | TimedOut | Completed | Cancelled.

Definition listed (s : Session) : bool :=
  existsb (Nat.eqb (self_id (dlg s))) (dialogs s).

Definition state_of (s : Session) : terminal_state :=
  if (visible (dlg s) || listed s)%bool then Active
  else if timed_out (dlg s) then TimedOut
  else if (time_left_int (dlg s) =? 0)%Z then Completed
  else Cancelled.

(** A session is well formed when its dialog is listed at most once, is
    listed exactly while it is on screen, and is off screen once
    [timed_out] is set.  Sessions made by [show_timeout_wait_dialog] and
    driven by the timer and by [close] are well formed (see
    [reachable_wf]). *)
Definition wf (s : Session) : Prop :=
  (count_occ Nat.eq_dec (dialogs s) (self_id (dlg s)) <= 1)%nat /\
  listed s = visible (dlg s) /\
  (timed_out (dlg s) = true -> visible (dlg s) = false).

(** Sessions that the code can produce: handed out by
    [show_timeout_wait_dialog] for a new object, then any number of timer
    ticks and closings. *)
Inductive reachable : Session -> Prop :=
| reach_show srv tx wallet self reg s :
    ~ In self reg ->
    session_of (show_timeout_wait_dialog srv tx wallet self reg) = Some s ->
    reachable s
| reach_tick srv s :
    reachable s -> reachable (fst (timer_timeout srv s))
| reach_close s :
    reachable s -> reachable (close s).

(** No watched fingerprint holds a lock: every lock key reads as a falsy
    value. *)
Definition lock_free (srv : Server) (hashes : list string) : Prop :=
  forall h, In h hashes ->
    exists v, get srv (h ++ "_lock") = Ok v /\ truthy v = false.

(** A lock key reads as a held lock. *)
Definition reads_held (srv : Server) (h : string) : bool :=
  match get srv (h ++ "_lock") with
  | Ok v => truthy v
  | Raised _ => false
  end.

(** A keystore entry with fingerprint [h] and the given kind. *)
Definition has_keystore (ks : list (string * Keystore)) (h : string) (watch_only : bool) : Prop :=
  exists key k, In (key, k) ks /\ ks_hash k = Ok h /\ is_watching_only k = watch_only.

(** A string without white space. *)
Definition plain (s : string) : Prop :=
  forallb (fun c => negb (is_space c)) (list_ascii_of_string s) = true.

(** A string that begins with a decimal digit. *)
Definition starts_with_digit (s : string) : Prop :=
  match s with
  | String c _ => digit_of c <> None
  | EmptyString => False
  end.

(** The poll ran to its end and found no lock. *)
Definition poll_finds_no_lock (srv : Server) (hashes : list string) : bool :=
  match poll_locks srv hashes false with
  | Ok false => true
  | _ => false
  end.

(** ** The seed, in the words of the specification *)

Definition remaining (current_time expiry : Z) : Z :=
  DURATION_INT - (current_time - expiry).

(** The last computed value, or the fixed duration when there is none. *)
Definition seed_spec (current_time : Z) (expiries : list Z) : Z :=
  last (map (remaining current_time) expiries) DURATION_INT.

Definition carries_expiry (item : string * pyval) : bool := truthy (snd item).

(** ** The countdown label of [update] *)

(** The decimal digits of a natural number, as [str] and [format] print
    them. *)
Definition decimal (n : N) : string :=
  DecimalString.NilEmpty.string_of_uint (N.to_uint n).

Fixpoint zero_pad (k : nat) (s : string) : string :=
  match k with
  | O => s
  | S k' => String "0" (zero_pad k' s)
  end.

(** Zeros on the left up to [width] characters. *)
Definition zfill (width : nat) (s : string) : string :=
  zero_pad (width - String.length s) s.

(** ['{:02d}'.format(z)]: the sign if any, then the digits, padded with
    zeros between the two so that the whole is at least 2 wide. *)
Definition format_02d (z : Z) : string :=
  if (z <? 0)%Z
  then String "-" (zfill 1 (decimal (Z.to_N (- z))))
  else zfill 2 (decimal (Z.to_N z)).

(** The text [update] gives to [time_out_label]:
    [mins, secs = divmod(self.time_left_int, 60)] and
    ['Time left: {:02d}:{:02d}'.format(mins, secs)]. *)
Definition time_label (t : Z) : string :=
  let mins := (t / 60)%Z in
  let secs := (t mod 60)%Z in
  "Time left: " ++ format_02d mins ++ ":" ++ format_02d secs.

(** Two decimal digits, written out. *)
Definition digit_char (d : Z) : ascii := ascii_of_nat (48 + Z.to_nat d).

Definition two_digits (n : Z) : string :=
  String (digit_char (n / 10)) (String (digit_char (n mod 10)) EmptyString).

(** The value of a decimal numeral read from the left, starting from
    [acc]. *)
Fixpoint uint_value (d : Decimal.uint) (acc : Z) : Z :=
  match d with
  | Decimal.Nil => acc
  | Decimal.D0 d => uint_value d (10 * acc)
  | Decimal.D1 d => uint_value d (10 * acc + 1)
  | Decimal.D2 d => uint_value d (10 * acc + 2)
  | Decimal.D3 d => uint_value d (10 * acc + 3)
  | Decimal.D4 d => uint_value d (10 * acc + 4)
  | Decimal.D5 d => uint_value d (10 * acc + 5)
  | Decimal.D6 d => uint_value d (10 * acc + 6)
  | Decimal.D7 d => uint_value d (10 * acc + 7)
  | Decimal.D8 d => uint_value d (10 * acc + 8)
  | Decimal.D9 d => uint_value d (10 * acc + 9)
  end.

(** ** The signer name, in the words of the specification *)

(** The name a keystore contributes at creation: the value under its
    name key, when the keystore is watch-only, its lock value is truthy
    and the name is non-empty. *)
Definition signer_name (srv : Server) (keystore : Keystore) : list pyval :=
  match ks_hash keystore with
  | Ok h =>
      if is_watching_only keystore then
        match get srv (h ++ "_lock") with
        | Ok lock =>
            if truthy lock then
              match get srv (h ++ "_name") with
              | Ok name => if truthy name then [name] else []
              | Raised _ => []
              end
            else []
        | Raised _ => []
        end
      else []
  | Raised _ => []
  end.

(** The last name contributed by the watched keystores of a multisig
    wallet, [None] when there is none. *)
Definition name_at_creation (srv : Server) (wallet : Wallet) : pyval :=
  match wallet_type wallet with
  | Multisig_Wallet =>
      last (flat_map (fun entry => signer_name srv (snd entry)) (keystores wallet)) VNone
  | Other_Wallet => VNone
  end.

(** ** Sample inputs *)

(** A store with one cosigner record, under the fingerprint ["h1"]. *)
Definition store_with (lock name : pyval) (now : Z) : Server :=
  mk_server
    (fun k => if (k =? "h1_lock")%string then Ok lock
              else if (k =? "h1_name")%string then Ok name
              else Ok VNone)
    (Ok (VInt now)).

Definition unavailable : exn := mk_exn StoreUnavailableError "store unavailable".

Definition unavailable_store : Server :=
  mk_server (fun _ => Raised unavailable) (Raised unavailable).

(** A 2-of-2 wallet: our own key ["h0"] and a watch-only cosigner ["h1"]. *)
Definition wallet_2of2 : Wallet :=
  mk_wallet Multisig_Wallet
    [("x1/", mk_keystore (Ok "h0") false); ("x2/", mk_keystore (Ok "h1") true)].

(** A 2-of-3 wallet with two watch-only cosigners, ["h1"] then ["h2"]. *)
Definition wallet_2of3 : Wallet :=
  mk_wallet Multisig_Wallet
    [("x1/", mk_keystore (Ok "h0") false);
     ("x2/", mk_keystore (Ok "h1") true);
     ("x3/", mk_keystore (Ok "h2") true)].

(** Both cosigners hold a lock: ["h1"] since 1000, ["h2"] since 1200. *)
Definition store_two_locks (now : Z) : Server :=
  mk_server
    (fun k => if (k =? "h1_lock")%string then Ok (VStr "1000")
              else if (k =? "h2_lock")%string then Ok (VStr "1200")
              else Ok VNone)
    (Ok (VInt now)).

Definition wallet_standard : Wallet :=
  mk_wallet Other_Wallet [("x/", mk_keystore (Ok "h0") false)].

Definition tx_ok : Transaction := mk_tx "0200" (Ok tt).

Definition tx_bad : Transaction :=
  mk_tx "zz" (Raised (mk_exn ValueError "non-hexadecimal number found")).

(** A dialog on screen, listed, watching ["h1"], with [t] seconds left. *)
Definition watching (t : Z) : Session :=
  mk_session (mk_dialog 7 [("h1", VStr "1000")] VNone false ["h0"] ["h1"] t true true) [7%nat].

(** * Properties *)

(** ** The parser behind [int()] *)

Example int_of_string_plain : int_of_string "1700000000" = Some 1700000000.
Proof. reflexivity. Qed.

Example int_of_string_padded : int_of_string " -1_000 " = Some (-1000).
Proof. reflexivity. Qed.

Example int_of_string_bad : int_of_string "1__0" = None /\ int_of_string EmptyString = None.
Proof. split; reflexivity. Qed.

(** ** Lists and the registry *)

Lemma list_remove_unlisted x l :
  existsb (Nat.eqb x) l = false -> list_remove x l = None.
Proof.
  induction l as [|y l IH]; simpl; intros H; [reflexivity|].
  apply orb_false_iff in H as [Hxy Hl].
  rewrite Nat.eqb_sym, Hxy, (IH Hl). reflexivity.
Qed.

Lemma list_remove_once x l l' :
  (count_occ Nat.eq_dec l x <= 1)%nat ->
  list_remove x l = Some l' ->
  existsb (Nat.eqb x) l' = false.
Proof.
  revert l'. induction l as [|y l IH]; simpl; intros l' Hc Hr; [discriminate|].
  destruct (Nat.eqb_spec y x) as [->|Hne].
  - injection Hr as <-.
    destruct (Nat.eq_dec x x) as [_|N]; [|contradiction].
    destruct (existsb (Nat.eqb x) l) eqn:E; [|reflexivity].
    apply existsb_exists in E as (z & Hin & Hz).
    apply Nat.eqb_eq in Hz; subst z.
    apply (count_occ_In Nat.eq_dec) in Hin. lia.
  - destruct (Nat.eq_dec y x) as [Heq|_]; [contradiction|].
    destruct (list_remove x l) as [r|] eqn:Er; simpl in Hr; [|discriminate].
    injection Hr as <-. simpl.
    destruct (Nat.eqb_spec x y) as [Hxy|_]; [congruence|].
    simpl. apply IH; [assumption|reflexivity].
Qed.

Lemma existsb_not_in x l : ~ In x l -> existsb (Nat.eqb x) l = false.
Proof.
  intros H. destruct (existsb (Nat.eqb x) l) eqn:E; [|reflexivity].
  apply existsb_exists in E as (z & Hin & Hz).
  apply Nat.eqb_eq in Hz; subst z. contradiction.
Qed.

(** ** Closing *)

Lemma close_dlg s :
  dlg (close s) = set_visible false (dlg s).
Proof.
  unfold close, closeEvent.
  destruct (list_remove (self_id (dlg s)) (dialogs s)); reflexivity.
Qed.

Lemma close_visible s : visible (dlg (close s)) = false.
Proof. rewrite close_dlg. reflexivity. Qed.

Lemma close_unlisted s :
  listed s = false -> close s = mk_session (set_visible false (dlg s)) (dialogs s).
Proof.
  intros H. unfold close, closeEvent.
  rewrite (list_remove_unlisted _ _ H). reflexivity.
Qed.

Lemma close_listed s :
  (count_occ Nat.eq_dec (dialogs s) (self_id (dlg s)) <= 1)%nat ->
  listed (close s) = false.
Proof.
  intros Hc. unfold listed. rewrite close_dlg. simpl.
  unfold close, closeEvent.
  destruct (list_remove (self_id (dlg s)) (dialogs s)) as [l|] eqn:E; simpl.
  - eapply list_remove_once; eassumption.
  - destruct (existsb (Nat.eqb (self_id (dlg s))) (dialogs s)) eqn:Ex; [|reflexivity].
    apply existsb_exists in Ex as (z & Hin & Hz).
    apply Nat.eqb_eq in Hz; subst z.
    exfalso. clear Hc. revert E Hin.
    generalize (self_id (dlg s)) as x. generalize (dialogs s) as l.
    induction l as [|y l IH]; simpl; intros x E Hin; [contradiction|].
    destruct (Nat.eqb_spec y x); [discriminate|].
    destruct Hin as [->|Hin]; [congruence|].
    destruct (list_remove x l) eqn:Er; [discriminate|].
    eapply IH; eauto.
Qed.

Lemma close_count s :
  (count_occ Nat.eq_dec (dialogs (close s)) (self_id (dlg s))
     <= count_occ Nat.eq_dec (dialogs s) (self_id (dlg s)))%nat.
Proof.
  unfold close, closeEvent.
  destruct (list_remove (self_id (dlg s)) (dialogs s)) as [l|] eqn:E; simpl; [|lia].
  revert l E. generalize (self_id (dlg s)) as x. generalize (dialogs s) as l0.
  induction l0 as [|y l0 IH]; simpl; intros x l E; [discriminate|].
  destruct (Nat.eqb_spec y x) as [->|Hne].
  - injection E as <-. destruct (Nat.eq_dec x x); lia.
  - destruct (list_remove x l0) as [r|] eqn:Er; simpl in E; [|discriminate].
    injection E as <-. simpl.
    destruct (Nat.eq_dec y x); [contradiction|]. apply IH. exact Er.
Qed.

Lemma close_wf s :
  (count_occ Nat.eq_dec (dialogs s) (self_id (dlg s)) <= 1)%nat -> wf (close s).
Proof.
  intros Hc. split; [|split].
  - pose proof (close_count s) as H. rewrite close_dlg.
    change (self_id (set_visible false (dlg s))) with (self_id (dlg s)). lia.
  - rewrite close_listed by assumption. rewrite close_visible. reflexivity.
  - intros _. apply close_visible.
Qed.

(** ** The poll *)

Lemma poll_locks_lock_free srv hashes b :
  lock_free srv hashes -> poll_locks srv hashes b = Ok b.
Proof.
  revert b. induction hashes as [|h r IH]; intros b Hfree; simpl; [reflexivity|].
  destruct (Hfree h (or_introl eq_refl)) as (v & Hv & Hfalse).
  rewrite Hv. simpl. rewrite Hfalse. apply IH.
  intros h' Hin. apply Hfree. right. assumption.
Qed.

(** [update] ends in one of three ways: nothing happens, the poll raises
    and nothing has happened, or the poll found no lock and the dialog is
    closed with the countdown at 0. *)
Lemma update_cases srv s :
  update srv s = (s, Ok tt)
  \/ (exists e, poll_locks srv (cosigner_list (dlg s)) false = Raised e
                /\ (time_left_int (dlg s) mod 10 = 0)%Z
                /\ update srv s = (s, Raised e))
  \/ (poll_locks srv (cosigner_list (dlg s)) false = Ok false
      /\ (time_left_int (dlg s) mod 10 = 0)%Z
      /\ update srv s = (close (mk_session (set_time_left_int 0 (dlg s)) (dialogs s)), Ok tt)).
Proof.
  unfold update.
  destruct (Z.eqb_spec (time_left_int (dlg s) mod 10) 0) as [Hm|Hm]; [|left; reflexivity].
  destruct (poll_locks srv (cosigner_list (dlg s)) false) as [[|]|e] eqn:Hp.
  - left; reflexivity.
  - right; right. auto.
  - right; left. exists e. auto.
Qed.

(** The attributes that no handler writes. *)
Definition same_identity (d d' : TimeoutWaitDialog) : Prop :=
  self_id d' = self_id d /\ locks d' = locks d /\
  currently_signing d' = currently_signing d /\
  keyhashes d' = keyhashes d /\ cosigner_list d' = cosigner_list d /\
  my_qtimer d' = my_qtimer d.

Lemma same_identity_refl d : same_identity d d.
Proof. repeat split. Qed.

Lemma same_identity_trans d1 d2 d3 :
  same_identity d1 d2 -> same_identity d2 d3 -> same_identity d1 d3.
Proof.
  unfold same_identity. intros (a1 & a2 & a3 & a4 & a5 & a6) (b1 & b2 & b3 & b4 & b5 & b6).
  repeat split; congruence.
Qed.

Lemma close_same_identity s : same_identity (dlg s) (dlg (close s)).
Proof. rewrite close_dlg. repeat split. Qed.

Lemma update_same_identity srv s : same_identity (dlg s) (dlg (fst (update srv s))).
Proof.
  destruct (update_cases srv s) as [H|[(e & _ & _ & H)|(_ & _ & H)]]; rewrite H; cbn [fst].
  - apply same_identity_refl.
  - apply same_identity_refl.
  - rewrite close_dlg. repeat split.
Qed.

Lemma timer_timeout_same_identity srv s :
  same_identity (dlg s) (dlg (fst (timer_timeout srv s))).
Proof.
  unfold timer_timeout.
  eapply same_identity_trans; [|apply update_same_identity].
  cbv zeta.
  match goal with |- context [if ?c then _ else _] => destruct c end.
  - rewrite close_dlg. repeat split.
  - repeat split.
Qed.

(** ** C9: closing a closed session *)

(** C9. Cancellation is idempotent: closing a session that is already in
    a terminal state changes nothing; the session after the call is the
    session before it. *)
Theorem close_terminal_noop (s : Session) :
  state_of s <> Active -> close s = s.
Proof.
  intros Hterm.
  assert (Hoff : visible (dlg s) = false /\ listed s = false).
  { unfold state_of in Hterm.
    destruct (visible (dlg s)), (listed s); simpl in Hterm; try congruence; auto. }
  destruct Hoff as [Hv Hl].
  rewrite (close_unlisted s Hl).
  destruct s as [d reg]. simpl in *. destruct d. simpl in *. subst. reflexivity.
Qed.

Lemma close_terminal_noop_witness :
  state_of (close (watching 42)) <> Active /\
  close (close (watching 42)) = close (watching 42).
Proof.
  split.
  - vm_compute. discriminate.
  - apply close_terminal_noop. vm_compute. discriminate.
Defined.

(** Closing a well-formed session makes it terminal, so any further
    closing finds a terminal session. *)
Lemma close_reaches_terminal s :
  wf s -> state_of (close s) <> Active.
Proof.
  intros (Hc & _ & _). unfold state_of.
  rewrite close_visible, close_listed by assumption. cbn [orb].
  destruct (timed_out (dlg (close s))); [discriminate|].
  destruct (time_left_int (dlg (close s)) =? 0)%Z; discriminate.
Qed.

(** ** C2: a poll that finds no lock *)

Lemma active_fields s :
  wf s -> state_of s = Active ->
  visible (dlg s) = true /\ timed_out (dlg s) = false.
Proof.
  intros (_ & Hl & Ht) Ha. unfold state_of in Ha. rewrite Hl in Ha.
  destruct (visible (dlg s)) eqn:Hv; simpl in Ha.
  - split; [reflexivity|]. destruct (timed_out (dlg s)); [|reflexivity].
    specialize (Ht eq_refl). discriminate.
  - destruct (timed_out (dlg s)); [discriminate|].
    destruct (time_left_int (dlg s) =? 0)%Z; discriminate.
Qed.

(** The poll has no early exit: a lock key that cannot be read makes the
    poll raise, wherever its fingerprint stands in the set. *)
Lemma poll_locks_reads_every_key srv hashes b h e :
  In h hashes -> get srv (h ++ "_lock") = Raised e ->
  exists e', poll_locks srv hashes b = Raised e'.
Proof.
  revert b. induction hashes as [|h0 r IH]; intros b Hin Hget; [contradiction|].
  simpl. destruct Hin as [->|Hin].
  - rewrite Hget. simpl. eauto.
  - destruct (get srv (h0 ++ "_lock")) as [v|e0]; simpl; eauto.
Qed.

Lemma update_lock_free srv s :
  (time_left_int (dlg s) mod 10 = 0)%Z ->
  lock_free srv (cosigner_list (dlg s)) ->
  update srv s = (close (mk_session (set_time_left_int 0 (dlg s)) (dialogs s)), Ok tt).
Proof.
  intros Hm Hfree. unfold update. rewrite Hm. cbn [Z.eqb].
  rewrite (poll_locks_lock_free srv _ false Hfree). reflexivity.
Qed.

Lemma poll_locks_existsb srv hashes acc :
  (forall h, In h hashes -> exists v, get srv (h ++ "_lock") = Ok v) ->
  poll_locks srv hashes acc = Ok (acc || existsb (reads_held srv) hashes)%bool.
Proof.
  revert acc. induction hashes as [|h r IH]; intros acc Hok; simpl.
  - rewrite orb_false_r. reflexivity.
  - destruct (Hok h (or_introl eq_refl)) as (v & Hv).
    unfold reads_held at 1. rewrite Hv. simpl.
    rewrite IH by (intros h' Hin; apply Hok; right; exact Hin).
    destruct (truthy v), acc; reflexivity.
Qed.

Lemma poll_locks_ok_reads srv hashes acc b :
  poll_locks srv hashes acc = Ok b ->
  forall h, In h hashes -> exists v, get srv (h ++ "_lock") = Ok v.
Proof.
  revert acc. induction hashes as [|h0 r IH]; intros acc Hp h Hin; [contradiction|].
  simpl in Hp. destruct (get srv (h0 ++ "_lock")) as [v|e] eqn:Hg; simpl in Hp; [|discriminate].
  destruct Hin as [<-|Hin]; [eauto | eapply IH; eauto].
Qed.

Lemma poll_locks_raised srv hashes acc e :
  poll_locks srv hashes acc = Raised e ->
  exists h, In h hashes /\ get srv (h ++ "_lock") = Raised e.
Proof.
  revert acc. induction hashes as [|h0 r IH]; intros acc Hp; simpl in Hp; [discriminate|].
  destruct (get srv (h0 ++ "_lock")) as [v|e0] eqn:Hg; simpl in Hp.
  - destruct (IH _ Hp) as (h & Hin & Hh). exists h. split; [right; exact Hin|exact Hh].
  - injection Hp as <-. exists h0. split; [left; reflexivity|exact Hg].
Qed.

(** Closing with the countdown forced to 0 and [timed_out] unset is the
    Completed state. *)
Lemma forced_close_completed s :
  (count_occ Nat.eq_dec (dialogs s) (self_id (dlg s)) <= 1)%nat ->
  timed_out (dlg s) = false ->
  state_of (close (mk_session (set_time_left_int 0 (dlg s)) (dialogs s))) = Completed.
Proof.
  intros Hc Ht.
  set (s0 := mk_session (set_time_left_int 0 (dlg s)) (dialogs s)).
  assert (Hc0 : (count_occ Nat.eq_dec (dialogs s0) (self_id (dlg s0)) <= 1)%nat) by exact Hc.
  unfold state_of. rewrite close_visible, (close_listed s0 Hc0). cbn [orb].
  rewrite close_dlg. cbn. rewrite Ht. reflexivity.
Qed.

(** C2. On any evaluation of [update] with the countdown congruent to 0
    modulo 10, in a tick or inside the constructor, the lock key of every
    watched fingerprint is read: a read that fails, for whichever
    fingerprint, is the result of the evaluation, and a single truthy
    lock value, for whichever fingerprint, leaves the session as it is.
    When none of the watched fingerprints holds a lock, the countdown is
    forced to 0 and the dialog is closed in that same evaluation,
    whatever the countdown was: the session is then Completed (hidden,
    unlisted, not timed out, 0 seconds left). *)
Theorem update_no_lock_completes (srv : Server) (s : Session) :
  (count_occ Nat.eq_dec (dialogs s) (self_id (dlg s)) <= 1)%nat ->
  (time_left_int (dlg s) mod 10 = 0)%Z ->
  (forall h e,
      In h (cosigner_list (dlg s)) -> get srv (h ++ "_lock") = Raised e ->
      exists h' e',
        In h' (cosigner_list (dlg s)) /\ get srv (h' ++ "_lock") = Raised e' /\
        update srv s = (s, Raised e')) /\
  (forall h v,
      (forall h', In h' (cosigner_list (dlg s)) -> exists v', get srv (h' ++ "_lock") = Ok v') ->
      In h (cosigner_list (dlg s)) -> get srv (h ++ "_lock") = Ok v -> truthy v = true ->
      update srv s = (s, Ok tt)) /\
  (lock_free srv (cosigner_list (dlg s)) ->
   let s' := fst (update srv s) in
   snd (update srv s) = Ok tt /\
   time_left_int (dlg s') = 0%Z /\
   visible (dlg s') = false /\
   listed s' = false /\
   timed_out (dlg s') = timed_out (dlg s) /\
   (timed_out (dlg s) = false -> state_of s' = Completed)).
Proof.
  intros Hc Hm. split; [|split].
  - intros h e Hin Hg.
    destruct (poll_locks_reads_every_key srv _ false h e Hin Hg) as (e' & Hp).
    destruct (poll_locks_raised _ _ _ _ Hp) as (h' & Hin' & Hg').
    exists h', e'. split; [exact Hin'|]. split; [exact Hg'|].
    unfold update. rewrite Hm. cbn [Z.eqb]. rewrite Hp. reflexivity.
  - intros h v Hok Hin Hg Ht.
    unfold update. rewrite Hm. cbn [Z.eqb].
    rewrite (poll_locks_existsb srv _ false Hok). cbn [orb].
    assert (E : existsb (reads_held srv) (cosigner_list (dlg s)) = true).
    { apply existsb_exists. exists h. split; [exact Hin|].
      unfold reads_held. rewrite Hg. exact Ht. }
    rewrite E. reflexivity.
  - intros Hfree. cbv zeta.
    rewrite (update_lock_free srv s Hm Hfree). cbn [fst snd].
    set (s0 := mk_session (set_time_left_int 0 (dlg s)) (dialogs s)).
    assert (Hc0 : (count_occ Nat.eq_dec (dialogs s0) (self_id (dlg s0)) <= 1)%nat) by exact Hc.
    split; [reflexivity|]. split; [rewrite close_dlg; reflexivity|].
    split; [apply close_visible|]. split; [apply (close_listed s0 Hc0)|].
    split; [rewrite close_dlg; reflexivity|].
    intros Ht. apply forced_close_completed; assumption.
Qed.

(** Two evaluations that find no lock: on a dialog on screen with 90
    seconds left, and inside the constructor, on the dialog not yet
    listed or shown with its seed of 600. *)
Lemma update_no_lock_completes_witness :
  state_of (watching 90) = Active /\
  state_of (fst (update (store_with VNone VNone 1510) (watching 90))) = Completed /\
  state_of (fst (update (store_with VNone VNone 1500)
                   (mk_session (mk_dialog 7 [("h1", VNone)] VNone false ["h0"] ["h1"]
                                          600 true false) [3%nat]))) = Completed.
Proof.
  split; [reflexivity|]. split.
  - apply (update_no_lock_completes (store_with VNone VNone 1510) (watching 90)).
    + simpl. lia.
    + reflexivity.
    + intros h [<-|[]]. exists VNone. split; reflexivity.
    + reflexivity.
  - apply (update_no_lock_completes (store_with VNone VNone 1500)
             (mk_session (mk_dialog 7 [("h1", VNone)] VNone false ["h0"] ["h1"]
                                    600 true false) [3%nat])).
    + simpl. lia.
    + reflexivity.
    + intros h [<-|[]]. exists VNone. split; reflexivity.
    + reflexivity.
Defined.

(** The same on a timer tick: the decrement lands on a multiple of 10
    other than 0 and the poll finds no lock. *)
Lemma timer_timeout_no_lock_completes srv s :
  wf s -> state_of s = Active ->
  ((time_left_int (dlg s) - 1) mod 10 = 0)%Z ->
  time_left_int (dlg s) <> 1%Z ->
  lock_free srv (cosigner_list (dlg s)) ->
  time_left_int (dlg (fst (timer_timeout srv s))) = 0%Z /\
  state_of (fst (timer_timeout srv s)) = Completed.
Proof.
  intros Hwf Ha Hm Hne Hfree.
  destruct (active_fields s Hwf Ha) as [Hv Ht].
  unfold timer_timeout. cbv zeta. cbn [dlg time_left_int set_time_left_int].
  destruct (Z.eqb_spec (time_left_int (dlg s) - 1) 0) as [E|_]; [lia|]. cbn [andb].
  set (s1 := mk_session (set_time_left_int (time_left_int (dlg s) - 1) (dlg s)) (dialogs s)).
  rewrite (update_lock_free srv s1 Hm Hfree). cbn [fst].
  split.
  - rewrite close_dlg. reflexivity.
  - apply (forced_close_completed s1); [destruct Hwf as (Hc & _); exact Hc | exact Ht].
Qed.

(** ** C3: the countdown reaches 0 *)

(** C3. For an active session, when the decrement of a tick brings the
    countdown to exactly 0, the session is TimedOut after that tick:
    [timed_out] is set, the dialog is closed and the countdown is 0,
    whatever the store answers (even if reading it fails). *)
Theorem timer_timeout_times_out (srv : Server) (s : Session) :
  wf s ->
  state_of s = Active ->
  time_left_int (dlg s) = 1%Z ->
  let s' := fst (timer_timeout srv s) in
  timed_out (dlg s') = true /\
  time_left_int (dlg s') = 0%Z /\
  visible (dlg s') = false /\
  state_of s' = TimedOut.
Proof.
  intros Hwf Ha H1.
  destruct (active_fields s Hwf Ha) as [Hv Ht].
  set (s1 := mk_session (set_timed_out true (set_time_left_int 0 (dlg s))) (dialogs s)).
  assert (Htt : timer_timeout srv s = update srv (close s1)).
  { unfold timer_timeout, s1. cbv zeta. cbn [dlg dialogs].
    replace (time_left_int (dlg s) - 1)%Z with 0%Z by lia.
    change (time_left_int (set_time_left_int 0 (dlg s))) with 0%Z.
    change (visible (set_time_left_int 0 (dlg s))) with (visible (dlg s)).
    rewrite Hv. reflexivity. }
  cbv zeta. rewrite Htt.
  assert (Hc : (count_occ Nat.eq_dec (dialogs s1) (self_id (dlg s1)) <= 1)%nat)
    by (destruct Hwf as (Hc & _); exact Hc).
  assert (Hs2 : timed_out (dlg (close s1)) = true /\
                time_left_int (dlg (close s1)) = 0%Z /\
                visible (dlg (close s1)) = false /\
                listed (close s1) = false).
  { rewrite close_listed by assumption. rewrite close_dlg. repeat split. }
  destruct Hs2 as (Hto & Htl & Hvis & Hlis).
  assert (Hst : forall s2, timed_out (dlg s2) = true -> visible (dlg s2) = false ->
                           listed s2 = false -> state_of s2 = TimedOut).
  { intros s2 A B C. unfold state_of. rewrite A, B, C. reflexivity. }
  destruct (update_cases srv (close s1)) as [H|[(e & _ & _ & H)|(_ & _ & H)]];
    rewrite H; cbn [fst].
  - auto.
  - auto.
  - set (s3 := mk_session (set_time_left_int 0 (dlg (close s1))) (dialogs (close s1))).
    assert (Hl3 : listed s3 = false) by exact Hlis.
    rewrite (close_unlisted s3 Hl3).
    assert (Hto3 : timed_out (set_visible false (dlg s3)) = true) by exact Hto.
    split; [exact Hto3|]. split; [reflexivity|]. split; [reflexivity|].
    apply Hst; [exact Hto3 | reflexivity | exact Hlis].
Qed.

Lemma timer_timeout_times_out_witness :
  state_of (watching 1) = Active /\
  state_of (fst (timer_timeout unavailable_store (watching 1))) = TimedOut.
Proof.
  split; [reflexivity|].
  apply (timer_timeout_times_out unavailable_store (watching 1)).
  - unfold wf. simpl. repeat split; [lia | discriminate].
  - reflexivity.
  - reflexivity.
Defined.

(** ** C1: the seed of the countdown *)

Lemma last_cons {A : Type} (xs : list A) (x d : A) : last (x :: xs) d = last xs x.
Proof.
  revert x d. induction xs as [|y xs IH]; intros x d; [reflexivity|].
  change (last (y :: xs) d = last (y :: xs) x).
  rewrite (IH y d), (IH y x). reflexivity.
Qed.

(** The loop keeps the value held so far until a lock record with an
    expiry is met, and from then on the value computed from the last such
    record. *)
Lemma seed_time_left_last srv items nowv now exps cur :
  get_current_time srv = Ok nowv ->
  py_int nowv = Ok now ->
  Forall2 (fun item z => py_int (snd item) = Ok z) (filter carries_expiry items) exps ->
  seed_time_left srv items cur = Ok (last (map (remaining now) exps) cur).
Proof.
  intros Hnow Hint. revert exps cur.
  induction items as [|[h expire] r IH]; intros exps cur HF; simpl in *.
  - inversion HF; subst. reflexivity.
  - unfold carries_expiry in HF. simpl in HF.
    destruct (truthy expire) eqn:Ht.
    + inversion HF as [|item z l l' Hz HF' E1 E2]; subst. simpl in Hz.
      rewrite Hnow. simpl. rewrite Hint. simpl. rewrite Hz. simpl.
      rewrite (IH _ _ HF').
      f_equal. symmetry.
      exact (last_cons (map (remaining now) l') (remaining now z) cur).
    + apply IH. exact HF.
Qed.

Lemma seed_time_left_none srv items cur :
  filter carries_expiry items = [] ->
  seed_time_left srv items cur = Ok cur.
Proof.
  induction items as [|[h expire] r IH]; simpl; intros HF; [reflexivity|].
  unfold carries_expiry in HF. simpl in HF.
  destruct (truthy expire); [discriminate|]. apply IH. exact HF.
Qed.

Lemma init_fields_seed srv tx wallet self d0 :
  init_fields srv tx wallet self = Ok d0 ->
  seed_time_left srv (locks d0) DURATION_INT = Ok (time_left_int d0).
Proof.
  unfold init_fields. destruct (deserialize tx) as [u|e]; [|discriminate].
  destruct (match wallet_type wallet with
            | Multisig_Wallet => scan_keystores srv (keystores wallet) scan_init
            | Other_Wallet => Ok scan_init
            end) as [sc|e]; simpl; [|discriminate].
  destruct (seed_time_left srv (sc_locks sc) DURATION_INT) as [t|e] eqn:Hs; simpl;
    [|discriminate].
  intros H. injection H as <-. simpl. exact Hs.
Qed.

Lemma dict_set_keys k v d : map fst (dict_set k v d) = set_add k (map fst d).
Proof.
  induction d as [|[k' v'] r IH]; simpl; [reflexivity|].
  destruct (String.eqb_spec k' k) as [->|_]; simpl; [reflexivity|].
  rewrite IH. reflexivity.
Qed.

(** The lock records are kept under the watched fingerprints, in the
    order in which the fingerprints entered the watched set. *)
Lemma scan_keystores_keys srv ks acc sc :
  scan_keystores srv ks acc = Ok sc ->
  map fst (sc_locks acc) = sc_cosigner_list acc ->
  map fst (sc_locks sc) = sc_cosigner_list sc.
Proof.
  revert acc. induction ks as [|[key k] r IH]; intros acc Hs Hacc; simpl in Hs.
  - injection Hs as <-. exact Hacc.
  - destruct (ks_hash k) as [h|e]; simpl in Hs; [|discriminate].
    destruct (is_watching_only k); simpl in Hs.
    + destruct (get srv (h ++ "_lock")) as [lock|e]; simpl in Hs; [|discriminate].
      assert (Hk : map fst (dict_set h lock (sc_locks acc)) = set_add h (sc_cosigner_list acc))
        by (rewrite dict_set_keys, Hacc; reflexivity).
      destruct (truthy lock).
      * destruct (get srv (h ++ "_name")) as [name|e]; simpl in Hs; [|discriminate].
        apply (IH _ Hs). destruct (truthy name); exact Hk.
      * apply (IH _ Hs). exact Hk.
    + apply (IH _ Hs). exact Hacc.
Qed.

Lemma init_fields_keys srv tx wallet self d0 :
  init_fields srv tx wallet self = Ok d0 ->
  map fst (locks d0) = cosigner_list d0.
Proof.
  unfold init_fields. destruct (deserialize tx) as [u|e]; [|discriminate].
  destruct (match wallet_type wallet with
            | Multisig_Wallet => scan_keystores srv (keystores wallet) scan_init
            | Other_Wallet => Ok scan_init
            end) as [sc|e] eqn:Hsc; simpl; [|discriminate].
  destruct (seed_time_left srv (sc_locks sc) DURATION_INT) as [t|e]; simpl; [|discriminate].
  intros H. injection H as <-. simpl.
  destruct (wallet_type wallet).
  - apply (scan_keystores_keys _ _ _ _ Hsc). reflexivity.
  - injection Hsc as <-. reflexivity.
Qed.

(** C1. At session creation the countdown is seeded from the watched
    lock records in iteration order: every record that carries an expiry
    gives 600 - (current store time - expiry), and the value of the last
    such record is the seed; with no such record the seed is exactly
    600. *)
Theorem seed_last_write_wins (srv : Server) (tx : Transaction) (wallet : Wallet)
  (self : nat) (d0 : TimeoutWaitDialog) :
  init_fields srv tx wallet self = Ok d0 ->
  map fst (locks d0) = cosigner_list d0 /\
  (filter carries_expiry (locks d0) = [] -> time_left_int d0 = 600%Z) /\
  (forall nowv now exps,
      get_current_time srv = Ok nowv ->
      py_int nowv = Ok now ->
      Forall2 (fun item z => py_int (snd item) = Ok z)
              (filter carries_expiry (locks d0)) exps ->
      time_left_int d0 = seed_spec now exps /\
      seed_spec now exps = last (map (fun e => 600 - (now - e))%Z exps) 600%Z).
Proof.
  intros Hinit. pose proof (init_fields_seed _ _ _ _ _ Hinit) as Hseed.
  split; [exact (init_fields_keys _ _ _ _ _ Hinit)|].
  split.
  - intros Hnone. rewrite (seed_time_left_none _ _ _ Hnone) in Hseed.
    injection Hseed as <-. reflexivity.
  - intros nowv now exps Hnow Hint HF.
    rewrite (seed_time_left_last _ _ _ _ _ _ Hnow Hint HF) in Hseed.
    injection Hseed as <-. split; reflexivity.
Qed.

Lemma seed_last_write_wins_witness :
  exists d0,
    init_fields (store_two_locks 1500) tx_ok wallet_2of3 7 = Ok d0 /\
    time_left_int d0 = seed_spec 1500 [1000; 1200]%Z /\
    time_left_int d0 = 300%Z.
Proof.
  eexists. split; [reflexivity|].
  split; [|reflexivity].
  refine (proj1 (proj2 (proj2
    (seed_last_write_wins (store_two_locks 1500) tx_ok wallet_2of3 7 _ eq_refl))
    (VInt 1500) 1500%Z [1000; 1200]%Z eq_refl eq_refl _)).
  repeat constructor.
Defined.

(** ** The constructor *)

Lemma init_fields_fresh srv tx wallet self d0 :
  init_fields srv tx wallet self = Ok d0 ->
  self_id d0 = self /\ timed_out d0 = false /\ visible d0 = false.
Proof.
  unfold init_fields. destruct (deserialize tx) as [u|e]; [|discriminate].
  destruct (match wallet_type wallet with
            | Multisig_Wallet => scan_keystores srv (keystores wallet) scan_init
            | Other_Wallet => Ok scan_init
            end) as [sc|e]; simpl; [|discriminate].
  destruct (seed_time_left srv (sc_locks sc) DURATION_INT) as [t|e]; simpl; [|discriminate].
  intros H. injection H as <-. repeat split.
Qed.

(** *** [update] with its label refresh *)

Lemma update_with_labels_fst srv s :
  fst (update_with_labels srv s) = fst (update srv s).
Proof.
  unfold update_with_labels. destruct (update srv s) as [s' [u|e]]; reflexivity.
Qed.

Lemma update_with_labels_ok srv s u :
  snd (update_with_labels srv s) = Ok u ->
  refresh_labels (dlg (fst (update srv s))) = Ok tt.
Proof.
  unfold update_with_labels. destruct (update srv s) as [s' [u'|e]]; cbn [fst snd].
  - destruct (refresh_labels (dlg s')) as [[]|e]; [reflexivity|discriminate].
  - discriminate.
Qed.

(** The label refresh ends normally exactly when the name is not a
    number other than 0. *)
Lemma refresh_labels_ok d :
  refresh_labels d = Ok tt <-> (forall z, z <> 0%Z -> currently_signing d <> VInt z).
Proof.
  unfold refresh_labels, tx_desc_text, desc.
  destruct (currently_signing d) as [|text|z]; cbn [truthy].
  - split; [intros _ z _; discriminate | reflexivity].
  - split; [intros _ z _; discriminate|]. intros _.
    destruct (negb (text =? EmptyString)%string); reflexivity.
  - destruct (Z.eqb_spec z 0) as [->|Hz]; cbn [negb].
    + split; [intros _ z Hz E; congruence | reflexivity].
    + split; [discriminate|]. intros H. exfalso. apply (H z Hz). reflexivity.
Qed.

Lemma refresh_labels_same_name d d' :
  currently_signing d' = currently_signing d -> refresh_labels d' = refresh_labels d.
Proof. unfold refresh_labels, tx_desc_text, desc. intros ->. reflexivity. Qed.

(** A successful constructor is its three stages in a row, and its label
    refreshes ended normally. *)
Lemma init_ok srv tx wallet self reg reg1 d :
  init srv tx wallet self reg = (reg1, Ok d) ->
  exists d0,
    init_fields srv tx wallet self = Ok d0 /\
    d = dlg (fst (update srv (fst (update srv (mk_session (set_my_qtimer true d0) reg))))) /\
    reg1 = dialogs (fst (update srv (fst (update srv (mk_session (set_my_qtimer true d0) reg))))) /\
    refresh_labels d = Ok tt.
Proof.
  unfold init, timer_start.
  destruct (init_fields srv tx wallet self) as [d0|e]; [|intros H; congruence].
  cbn [dlg dialogs].
  set (s0 := mk_session (set_my_qtimer true d0) reg).
  destruct (update_with_labels srv s0) as [s1 [u1|e1]] eqn:E1; [|intros H; congruence].
  destruct (update_with_labels srv s1) as [s2 [u2|e2]] eqn:E2; [|intros H; congruence].
  intros H. inversion H; subst. exists d0.
  pose proof (update_with_labels_fst srv s0) as F1. rewrite E1 in F1. cbn [fst] in F1.
  pose proof (update_with_labels_fst srv s1) as F2. rewrite E2 in F2. cbn [fst] in F2.
  pose proof (update_with_labels_ok srv s1 u2) as L2. rewrite E2 in L2. cbn [snd] in L2.
  specialize (L2 eq_refl). subst s0.
  rewrite <- F1, <- F2. repeat split. rewrite F2. exact L2.
Qed.

(** What [update] may do to the remaining attributes. *)
Lemma update_flags srv s :
  timed_out (dlg (fst (update srv s))) = timed_out (dlg s) /\
  (visible (dlg s) = false -> visible (dlg (fst (update srv s))) = false) /\
  (listed s = false -> dialogs (fst (update srv s)) = dialogs s).
Proof.
  destruct (update_cases srv s) as [H|[(e & _ & _ & H)|(_ & _ & H)]]; rewrite H; cbn [fst];
    try (repeat split; auto; fail).
  split; [rewrite close_dlg; reflexivity|].
  split; [intros _; apply close_visible|].
  intros Hl.
  rewrite (close_unlisted (mk_session (set_time_left_int 0 (dlg s)) (dialogs s)) Hl).
  reflexivity.
Qed.

Lemma update_wf srv s : wf s -> wf (fst (update srv s)).
Proof.
  intros Hwf.
  destruct (update_cases srv s) as [H|[(e & _ & _ & H)|(_ & _ & H)]]; rewrite H; cbn [fst];
    try assumption.
  apply close_wf. destruct Hwf as (Hc & _). exact Hc.
Qed.

Lemma timer_timeout_wf srv s : wf s -> wf (fst (timer_timeout srv s)).
Proof.
  intros Hwf. unfold timer_timeout. cbv zeta. apply update_wf.
  match goal with |- context [if ?c then _ else _] => destruct c end.
  - apply close_wf. destruct Hwf as (Hc & _). exact Hc.
  - destruct Hwf as (Hc & Hl & Ht). split; [exact Hc|]. split; [exact Hl|exact Ht].
Qed.

(** Before the dialog is shown and listed, [update] can only change the
    countdown. *)
Lemma update_before_show srv s :
  visible (dlg s) = false -> listed s = false ->
  visible (dlg (fst (update srv s))) = false /\
  listed (fst (update srv s)) = false /\
  dialogs (fst (update srv s)) = dialogs s.
Proof.
  intros Hv Hl.
  destruct (update_flags srv s) as (_ & Hvis & Hreg).
  destruct (update_same_identity srv s) as (Hid & _).
  split; [auto|]. split; [|auto].
  unfold listed. rewrite Hid, (Hreg Hl). exact Hl.
Qed.

(** What [show_timeout_wait_dialog] hands out for a new object: the
    dialog is on screen, listed last in [dialogs], not timed out, and its
    timer is running. *)
Lemma show_session_fields srv tx wallet self reg s :
  ~ In self reg ->
  session_of (show_timeout_wait_dialog srv tx wallet self reg) = Some s ->
  self_id (dlg s) = self /\ dialogs s = (reg ++ [self])%list /\
  visible (dlg s) = true /\ timed_out (dlg s) = false /\ my_qtimer (dlg s) = true.
Proof.
  intros Hfresh. unfold show_timeout_wait_dialog, session_of.
  destruct (init srv tx wallet self reg) as [reg1 [d|e]] eqn:Hinit.
  - cbn. intros H. injection H as <-. cbn.
    destruct (init_ok _ _ _ _ _ _ _ Hinit) as (d0 & Hf & Hd & Hreg & _).
    destruct (init_fields_fresh _ _ _ _ _ Hf) as (Hid & Hto & Hvis).
    set (s0 := mk_session (set_my_qtimer true d0) reg) in *.
    assert (Hl0 : listed s0 = false)
      by (unfold listed; cbn; rewrite Hid; apply existsb_not_in; exact Hfresh).
    assert (Hv0 : visible (dlg s0) = false) by exact Hvis.
    destruct (update_before_show srv s0 Hv0 Hl0) as (Hv1 & Hl1 & Hr1).
    destruct (update_before_show srv _ Hv1 Hl1) as (Hv2 & Hl2 & Hr2).
    pose proof (same_identity_trans _ _ _ (update_same_identity srv s0)
                  (update_same_identity srv (fst (update srv s0)))) as (Hid2 & _ & _ & _ & _ & Hq).
    destruct (update_flags srv s0) as (Ht1 & _).
    destruct (update_flags srv (fst (update srv s0))) as (Ht2 & _).
    rewrite <- Hd in Hid2, Hq, Ht2.
    assert (Hself : self_id d = self) by (rewrite Hid2; exact Hid).
    rewrite Hself. split; [reflexivity|].
    split; [rewrite Hreg, Hr2, Hr1; reflexivity|].
    split; [reflexivity|].
    split; [rewrite Ht2, Ht1; exact Hto | exact Hq].
  - destruct (is_SerializationError e); cbn; discriminate.
Qed.

Lemma count_occ_fresh self reg :
  ~ In self reg -> count_occ Nat.eq_dec (reg ++ [self])%list self = 1%nat.
Proof.
  intros H. rewrite count_occ_app.
  rewrite (proj1 (count_occ_not_In Nat.eq_dec reg self) H). simpl.
  destruct (Nat.eq_dec self self); [reflexivity|contradiction].
Qed.

Lemma show_session_wf srv tx wallet self reg s :
  ~ In self reg ->
  session_of (show_timeout_wait_dialog srv tx wallet self reg) = Some s ->
  wf s /\ state_of s = Active.
Proof.
  intros Hfresh Hs.
  destruct (show_session_fields _ _ _ _ _ _ Hfresh Hs) as (Hid & Hreg & Hv & Ht & _).
  assert (Hl : listed s = true).
  { unfold listed. rewrite Hid, Hreg, existsb_app. simpl.
    rewrite Nat.eqb_refl. apply orb_true_iff. right. reflexivity. }
  split.
  - split; [|split].
    + rewrite Hid, Hreg, (count_occ_fresh _ _ Hfresh). lia.
    + rewrite Hl, Hv. reflexivity.
    + rewrite Ht. discriminate.
  - unfold state_of. rewrite Hv. reflexivity.
Qed.

(** Every session the code can produce is well formed. *)
Lemma reachable_wf s : reachable s -> wf s.
Proof.
  induction 1 as [srv tx wallet self reg s Hfresh Hs | srv s _ IH | s _ IH].
  - apply (show_session_wf _ _ _ _ _ _ Hfresh Hs).
  - apply timer_timeout_wf. exact IH.
  - apply close_wf. destruct IH as (Hc & _). exact Hc.
Qed.

(** No handler stops the timer: once started it runs in every reachable
    session, closed or not. *)
Lemma reachable_timer_runs s : reachable s -> my_qtimer (dlg s) = true.
Proof.
  induction 1 as [srv tx wallet self reg s Hfresh Hs | srv s _ IH | s _ IH].
  - apply (show_session_fields _ _ _ _ _ _ Hfresh Hs).
  - destruct (timer_timeout_same_identity srv s) as (_ & _ & _ & _ & _ & Hq).
    rewrite Hq. exact IH.
  - rewrite close_dlg. exact IH.
Qed.

(** ** C8: a transaction that cannot be deserialized *)

(** C8. When [tx.deserialize()] raises (whatever it raises), the
    constructor fails with [SerializationError] carrying that failure,
    [show_timeout_wait_dialog] returns no dialog, leaves [dialogs] as it
    was, and reports the failure through [parent.show_critical]. *)
Theorem deserialize_failure_reported (srv : Server) (tx : Transaction) (wallet : Wallet)
  (self : nat) (reg : list nat) (e : exn) :
  deserialize tx = Raised e ->
  init srv tx wallet self reg = (reg, Raised (mk_exn SerializationError (str_exn e))) /\
  show_timeout_wait_dialog srv tx wallet self reg
    = mk_show reg
        (Some ("Rutanio-Electrum was unable to deserialize the transaction:"
                 ++ newline ++ str_exn e))
        (Ok None) /\
  session_of (show_timeout_wait_dialog srv tx wallet self reg) = None.
Proof.
  intros Hd.
  assert (Hi : init srv tx wallet self reg
               = (reg, Raised (mk_exn SerializationError (str_exn e)))).
  { unfold init, init_fields. rewrite Hd. reflexivity. }
  split; [exact Hi|].
  unfold session_of, show_timeout_wait_dialog. rewrite Hi. cbn. split; reflexivity.
Qed.

Lemma deserialize_failure_reported_witness :
  sr_return (show_timeout_wait_dialog (store_with (VStr "1000") VNone 1500)
               tx_bad wallet_2of2 7 [3%nat]) = Ok None /\
  sr_dialogs (show_timeout_wait_dialog (store_with (VStr "1000") VNone 1500)
               tx_bad wallet_2of2 7 [3%nat]) = [3%nat].
Proof.
  rewrite (proj1 (proj2 (deserialize_failure_reported
            (store_with (VStr "1000") VNone 1500) tx_bad wallet_2of2 7 [3%nat]
            (mk_exn ValueError "non-hexadecimal number found") eq_refl))).
  split; reflexivity.
Defined.

(** The scan keeps the name held so far until a keystore contributes
    one, and from then on the last name contributed. *)
Lemma scan_keystores_name srv ks acc sc :
  scan_keystores srv ks acc = Ok sc ->
  sc_currently_signing sc
  = last (flat_map (fun entry => signer_name srv (snd entry)) ks) (sc_currently_signing acc).
Proof.
  revert acc. induction ks as [|[key k] r IH]; intros acc Hs; simpl in Hs.
  - injection Hs as <-. reflexivity.
  - cbn [flat_map snd]. unfold signer_name at 1.
    destruct (ks_hash k) as [h|e]; simpl in Hs; [|discriminate].
    destruct (is_watching_only k); simpl in Hs.
    + destruct (get srv (h ++ "_lock")) as [lock|e]; simpl in Hs; [|discriminate].
      destruct (truthy lock).
      * destruct (get srv (h ++ "_name")) as [name|e]; simpl in Hs; [|discriminate].
        destruct (truthy name).
        -- rewrite (IH _ Hs). cbn [sc_currently_signing app].
           symmetry. apply last_cons.
        -- rewrite (IH _ Hs). reflexivity.
      * rewrite (IH _ Hs). reflexivity.
    + rewrite (IH _ Hs). reflexivity.
Qed.

Lemma init_fields_name srv tx wallet self d0 :
  init_fields srv tx wallet self = Ok d0 ->
  currently_signing d0 = name_at_creation srv wallet.
Proof.
  unfold init_fields, name_at_creation. destruct (deserialize tx) as [u|e]; [|discriminate].
  destruct (match wallet_type wallet with
            | Multisig_Wallet => scan_keystores srv (keystores wallet) scan_init
            | Other_Wallet => Ok scan_init
            end) as [sc|e] eqn:Hsc; simpl; [|discriminate].
  destruct (seed_time_left srv (sc_locks sc) DURATION_INT) as [t|e]; simpl; [|discriminate].
  intros H. injection H as <-. simpl.
  destruct (wallet_type wallet).
  - apply (scan_keystores_name _ _ _ _ Hsc).
  - injection Hsc as <-. reflexivity.
Qed.

Lemma set_add_in x y s : In x (set_add y s) <-> x = y \/ In x s.
Proof.
  induction s as [|z r IH]; simpl.
  - split; [intros [H|[]]; left; congruence | intros [H|[]]; left; congruence].
  - destruct (String.eqb_spec z y) as [->|Hne]; simpl.
    + split; [intros H; right; exact H | intros [->|H]; [left; reflexivity | exact H]].
    + rewrite IH. split.
      * intros [H|[H|H]]; auto.
      * intros [H|[H|H]]; auto.
Qed.

Lemma set_add_nodup y s : NoDup s -> NoDup (set_add y s).
Proof.
  induction s as [|z r IH]; simpl; intros Hnd.
  - constructor; [intros []|constructor].
  - destruct (String.eqb_spec z y) as [->|Hne]; [exact Hnd|].
    inversion Hnd as [|z' r' Hnin Hr]; subst.
    constructor; [|apply IH; exact Hr].
    rewrite set_add_in. intros [E|Hin]; [congruence|contradiction].
Qed.

Lemma scan_keystores_sets srv ks acc sc :
  scan_keystores srv ks acc = Ok sc ->
  (forall h, In h (sc_cosigner_list sc) <-> In h (sc_cosigner_list acc) \/ has_keystore ks h true) /\
  (forall h, In h (sc_keyhashes sc) <-> In h (sc_keyhashes acc) \/ has_keystore ks h false) /\
  (NoDup (sc_cosigner_list acc) -> NoDup (sc_cosigner_list sc)) /\
  (NoDup (sc_keyhashes acc) -> NoDup (sc_keyhashes sc)).
Proof.
  revert acc. induction ks as [|[key k] r IH]; intros acc Hs; simpl in Hs.
  - injection Hs as <-. unfold has_keystore.
    repeat split; auto; intros [H|(key & k & [] & _)]; exact H.
  - destruct (ks_hash k) as [h0|e] eqn:Hk; simpl in Hs; [|discriminate].
    assert (Hcons : forall h b, has_keystore ((key, k) :: r) h b
                      <-> (h = h0 /\ is_watching_only k = b) \/ has_keystore r h b).
    { intros h b. unfold has_keystore. split.
      - intros (key' & k' & [E|Hin] & Hh & Hb).
        + injection E as <- <-. left. split; congruence.
        + right. eauto.
      - intros [[-> Hb]|(key' & k' & Hin & Hh & Hb)].
        + exists key, k. simpl. auto.
        + exists key', k'. simpl. auto. }
    destruct (is_watching_only k) eqn:Hwo; simpl in Hs.
    + destruct (get srv (h0 ++ "_lock")) as [lock|e]; simpl in Hs; [|discriminate].
      assert (Hnext : exists acc1,
                 scan_keystores srv r acc1 = Ok sc /\
                 sc_cosigner_list acc1 = set_add h0 (sc_cosigner_list acc) /\
                 sc_keyhashes acc1 = sc_keyhashes acc).
      { destruct (truthy lock).
        - destruct (get srv (h0 ++ "_name")) as [name|e]; simpl in Hs; [|discriminate].
          eexists. split; [exact Hs|]. destruct (truthy name); split; reflexivity.
        - eexists. split; [exact Hs|]. split; reflexivity. }
      destruct Hnext as (acc1 & Hs1 & Hc1 & Hk1).
      destruct (IH _ Hs1) as (A & B & C & D). rewrite Hc1 in A, C. rewrite Hk1 in B, D.
      split; [|split; [|split]].
      * intros h. rewrite A, set_add_in, Hcons. intuition congruence.
      * intros h. rewrite B, Hcons. intuition congruence.
      * intros Hnd. apply C. apply set_add_nodup. exact Hnd.
      * exact D.
    + destruct (IH _ Hs) as (A & B & C & D). cbn [sc_cosigner_list sc_keyhashes] in A, B, C, D.
      split; [|split; [|split]].
      * intros h. rewrite A, Hcons. intuition congruence.
      * intros h. rewrite B, set_add_in, Hcons. intuition congruence.
      * exact C.
      * intros Hnd. apply D. apply set_add_nodup. exact Hnd.
Qed.

Lemma init_fields_watched srv tx wallet self d0 h :
  init_fields srv tx wallet self = Ok d0 ->
  wallet_type wallet = Multisig_Wallet ->
  has_keystore (keystores wallet) h true ->
  In h (cosigner_list d0).
Proof.
  unfold init_fields. intros Hinit Hw Hk. rewrite Hw in Hinit.
  destruct (deserialize tx) as [u|e]; [|discriminate].
  destruct (scan_keystores srv (keystores wallet) scan_init) as [sc|e] eqn:Hsc;
    simpl in Hinit; [|discriminate].
  destruct (seed_time_left srv (sc_locks sc) DURATION_INT) as [t|e]; simpl in Hinit;
    [|discriminate].
  injection Hinit as <-. cbn [cosigner_list].
  destruct (scan_keystores_sets _ _ _ _ Hsc) as (A & _).
  apply A. right. exact Hk.
Qed.

(** With no watched lock held, no name key is read: the name stays
    [None]. *)
Lemma init_fields_lock_free_name srv tx wallet self d0 :
  init_fields srv tx wallet self = Ok d0 ->
  lock_free srv (cosigner_list d0) ->
  currently_signing d0 = VNone.
Proof.
  intros Hinit Hfree. rewrite (init_fields_name _ _ _ _ _ Hinit).
  unfold name_at_creation. destruct (wallet_type wallet) eqn:Hw; [|reflexivity].
  assert (G : forall ks, (forall key k, In (key, k) ks -> In (key, k) (keystores wallet)) ->
                         flat_map (fun entry => signer_name srv (snd entry)) ks = []).
  { induction ks as [|[key k] r IH]; intros Hsub; [reflexivity|].
    cbn [flat_map snd]. rewrite IH by (intros key' k' Hin; apply Hsub; right; exact Hin).
    rewrite app_nil_r. unfold signer_name.
    destruct (ks_hash k) as [h|e] eqn:Hk; [|reflexivity].
    destruct (is_watching_only k) eqn:Hwo; [|reflexivity].
    assert (Hin : In h (cosigner_list d0)).
    { apply (init_fields_watched _ _ _ _ _ h Hinit Hw).
      exists key, k. split; [apply Hsub; left; reflexivity|]. split; assumption. }
    destruct (Hfree h Hin) as (v & Hv & Hf). rewrite Hv, Hf. reflexivity. }
  rewrite G by auto. reflexivity.
Qed.

(** ** C10: a session that watches no lock at creation *)

Lemma dict_set_in k v d k' v' :
  In (k', v') (dict_set k v d) -> (k', v') = (k, v) \/ In (k', v') d.
Proof.
  induction d as [|[k0 v0] r IH]; simpl.
  - intros [H|[]]; left; congruence.
  - destruct (String.eqb_spec k0 k) as [->|_]; simpl.
    + intros [H|H]; [left; congruence | right; right; exact H].
    + intros [H|H]; [right; left; exact H|].
      destruct (IH H) as [E|E]; [left; exact E | right; right; exact E].
Qed.

(** Every lock record kept at creation is what the store answered for
    that fingerprint's lock key. *)
Lemma scan_keystores_locks srv ks acc sc :
  scan_keystores srv ks acc = Ok sc ->
  (forall h v, In (h, v) (sc_locks acc) -> get srv (h ++ "_lock") = Ok v) ->
  forall h v, In (h, v) (sc_locks sc) -> get srv (h ++ "_lock") = Ok v.
Proof.
  revert acc. induction ks as [|[key k] r IH]; intros acc Hs Hacc; simpl in Hs.
  - injection Hs as <-. exact Hacc.
  - destruct (ks_hash k) as [h0|e]; simpl in Hs; [|discriminate].
    destruct (is_watching_only k); simpl in Hs.
    + destruct (get srv (h0 ++ "_lock")) as [lock|e] eqn:Hg; simpl in Hs; [|discriminate].
      assert (Hk : forall h v, In (h, v) (dict_set h0 lock (sc_locks acc)) ->
                               get srv (h ++ "_lock") = Ok v).
      { intros h v Hin. destruct (dict_set_in _ _ _ _ _ Hin) as [E|E].
        - injection E as -> ->. exact Hg.
        - apply Hacc. exact E. }
      destruct (truthy lock).
      * destruct (get srv (h0 ++ "_name")) as [name|e]; simpl in Hs; [|discriminate].
        apply (IH _ Hs). destruct (truthy name); exact Hk.
      * apply (IH _ Hs). exact Hk.
    + apply (IH _ Hs). exact Hacc.
Qed.

Lemma init_fields_locks srv tx wallet self d0 :
  init_fields srv tx wallet self = Ok d0 ->
  forall h v, In (h, v) (locks d0) -> get srv (h ++ "_lock") = Ok v.
Proof.
  unfold init_fields. destruct (deserialize tx) as [u|e]; [|discriminate].
  destruct (match wallet_type wallet with
            | Multisig_Wallet => scan_keystores srv (keystores wallet) scan_init
            | Other_Wallet => Ok scan_init
            end) as [sc|e] eqn:Hsc; simpl; [|discriminate].
  destruct (seed_time_left srv (sc_locks sc) DURATION_INT) as [t|e]; simpl; [|discriminate].
  intros H. injection H as <-. simpl.
  destruct (wallet_type wallet).
  - apply (scan_keystores_locks _ _ _ _ Hsc). intros h v [].
  - injection Hsc as <-. intros h v [].
Qed.

(** With no lock held, no record carries an expiry and the seed is the
    fixed duration. *)
Lemma init_fields_lock_free srv tx wallet self d0 :
  init_fields srv tx wallet self = Ok d0 ->
  lock_free srv (cosigner_list d0) ->
  time_left_int d0 = 600%Z.
Proof.
  intros Hinit Hfree.
  pose proof (init_fields_seed _ _ _ _ _ Hinit) as Hseed.
  enough (Hnone : filter carries_expiry (locks d0) = []).
  { rewrite (seed_time_left_none _ _ _ Hnone) in Hseed. injection Hseed as <-. reflexivity. }
  pose proof (init_fields_keys _ _ _ _ _ Hinit) as Hkeys.
  pose proof (init_fields_locks _ _ _ _ _ Hinit) as Hlocks.
  assert (G : forall items, (forall h v, In (h, v) items -> truthy v = false) ->
                            filter carries_expiry items = []).
  { induction items as [|[h v] r IH]; intros Hall; [reflexivity|].
    simpl. unfold carries_expiry at 1. simpl.
    rewrite (Hall h v (or_introl eq_refl)). apply IH.
    intros h' v' Hin. apply (Hall h' v'). right. exact Hin. }
  apply G. intros h v Hin.
  assert (Hh : In h (cosigner_list d0)).
  { rewrite <- Hkeys. apply (in_map fst _ _ Hin). }
  destruct (Hfree h Hh) as (v' & Hv' & Hf).
  rewrite (Hlocks h v Hin) in Hv'. injection Hv' as ->. exact Hf.
Qed.

Lemma init_lock_free srv tx wallet self reg d0 :
  init_fields srv tx wallet self = Ok d0 ->
  lock_free srv (cosigner_list d0) ->
  ~ In self reg ->
  init srv tx wallet self reg
  = (reg, Ok (set_visible false (set_time_left_int 0 (set_my_qtimer true d0)))).
Proof.
  intros Hinit Hfree Hfresh.
  pose proof (init_fields_lock_free _ _ _ _ _ Hinit Hfree) as H600.
  pose proof (init_fields_lock_free_name _ _ _ _ _ Hinit Hfree) as Hname.
  destruct (init_fields_fresh _ _ _ _ _ Hinit) as (Hid & _ & _).
  assert (Hun : existsb (Nat.eqb (self_id d0)) reg = false)
    by (rewrite Hid; apply existsb_not_in; exact Hfresh).
  unfold init. rewrite Hinit. unfold timer_start. cbn [dlg dialogs].
  set (s0 := mk_session (set_my_qtimer true d0) reg).
  set (s1 := mk_session (set_visible false (set_time_left_int 0 (set_my_qtimer true d0))) reg).
  assert (Hlab : refresh_labels (dlg s1) = Ok tt).
  { apply refresh_labels_ok. intros z _.
    change (currently_signing (dlg s1)) with (currently_signing d0).
    rewrite Hname. discriminate. }
  assert (Hu0 : update_with_labels srv s0 = (s1, Ok tt)).
  { unfold update_with_labels. rewrite update_lock_free.
    - rewrite close_unlisted by exact Hun. exact (f_equal (pair s1) Hlab).
    - change (time_left_int (dlg s0)) with (time_left_int d0). rewrite H600. reflexivity.
    - exact Hfree. }
  rewrite Hu0.
  assert (Hu1 : update_with_labels srv s1 = (s1, Ok tt)).
  { unfold update_with_labels. rewrite update_lock_free.
    - rewrite close_unlisted by exact Hun. exact (f_equal (pair s1) Hlab).
    - reflexivity.
    - exact Hfree. }
  rewrite Hu1. reflexivity.
Qed.

(** C10. A session whose watched fingerprints hold no lock at creation
    (so, any session of a wallet that is not a multisig wallet) has its
    countdown forced from 600 to 0 inside the constructor, which also
    calls [close] there; the dialog is then listed and shown all the
    same, with its timer running: the session handed out is Active with
    0 seconds left, and its first tick takes the countdown to -1 and
    leaves it Active. *)
Theorem no_lock_session_is_shown (srv : Server) (tx : Transaction) (wallet : Wallet)
  (self : nat) (reg : list nat) (d0 : TimeoutWaitDialog) :
  init_fields srv tx wallet self = Ok d0 ->
  lock_free srv (cosigner_list d0) ->
  ~ In self reg ->
  exists s,
    session_of (show_timeout_wait_dialog srv tx wallet self reg) = Some s /\
    time_left_int (dlg s) = 0%Z /\
    state_of s = Active /\
    my_qtimer (dlg s) = true /\
    forall srv',
      time_left_int (dlg (fst (timer_timeout srv' s))) = (-1)%Z /\
      state_of (fst (timer_timeout srv' s)) = Active.
Proof.
  intros Hinit Hfree Hfresh.
  pose proof (init_lock_free _ _ _ _ reg _ Hinit Hfree Hfresh) as Hi.
  eexists. split.
  - unfold session_of, show_timeout_wait_dialog. rewrite Hi. cbn. reflexivity.
  - split; [reflexivity|]. split; [reflexivity|]. split; [reflexivity|].
    intros srv'. split; reflexivity.
Qed.

Lemma no_lock_session_is_shown_witness :
  exists s,
    session_of (show_timeout_wait_dialog (store_with VNone VNone 1500)
                  tx_ok wallet_2of2 7 [3%nat]) = Some s /\
    time_left_int (dlg s) = 0%Z /\
    state_of s = Active /\
    my_qtimer (dlg s) = true /\
    forall srv',
      time_left_int (dlg (fst (timer_timeout srv' s))) = (-1)%Z /\
      state_of (fst (timer_timeout srv' s)) = Active.
Proof.
  apply (no_lock_session_is_shown (store_with VNone VNone 1500) tx_ok wallet_2of2
           7 [3%nat] (mk_dialog 7 [("h1", VNone)] VNone false ["h0"] ["h1"] 600 false false)).
  - reflexivity.
  - intros h [<-|[]]. exists VNone. split; reflexivity.
  - simpl. intros [H|[]]. discriminate H.
Defined.

(** The same session through its first ten ticks, the lock never taken:
    on screen with a negative countdown for nine of them, closed by the
    poll of the tenth. *)
Lemma no_lock_session_ten_ticks :
  option_map
    (fun s =>
       (state_of s, time_left_int (dlg s),
        state_of (run_ticks (repeat (store_with VNone VNone 1500) 9) s),
        time_left_int (dlg (run_ticks (repeat (store_with VNone VNone 1500) 9) s)),
        state_of (run_ticks (repeat (store_with VNone VNone 1500) 10) s)))
    (session_of (show_timeout_wait_dialog (store_with VNone VNone 1500)
                   tx_ok wallet_2of2 7 [3%nat]))
  = Some (Active, 0%Z, Active, (-9)%Z, Completed).
Proof. vm_compute. reflexivity. Qed.

(** A wallet that is not a multisig wallet watches nothing and gets the
    same session. *)
Lemma standard_wallet_session :
  option_map (fun s => (state_of s, time_left_int (dlg s), cosigner_list (dlg s)))
    (session_of (show_timeout_wait_dialog unavailable_store tx_ok wallet_standard 7 []))
  = Some (Active, 0%Z, []).
Proof. reflexivity. Qed.

(** ** Closed sessions and the last tick *)

Lemma not_active_fields s :
  state_of s <> Active -> visible (dlg s) = false /\ listed s = false.
Proof.
  unfold state_of. destruct (visible (dlg s)), (listed s); simpl; intros H;
    try congruence; auto.
Qed.

Lemma closed_is_not_active s :
  visible (dlg s) = false -> listed s = false -> state_of s <> Active.
Proof.
  intros Hv Hl. unfold state_of. rewrite Hv, Hl. cbn [orb].
  destruct (timed_out (dlg s)); [discriminate|].
  destruct (time_left_int (dlg s) =? 0)%Z; discriminate.
Qed.

(** One tick of a closed session: still closed, [dialogs] and
    [timed_out] as before. *)
Lemma closed_tick srv s :
  visible (dlg s) = false -> listed s = false ->
  visible (dlg (fst (timer_timeout srv s))) = false /\
  listed (fst (timer_timeout srv s)) = false /\
  dialogs (fst (timer_timeout srv s)) = dialogs s /\
  timed_out (dlg (fst (timer_timeout srv s))) = timed_out (dlg s).
Proof.
  intros Hv Hl. unfold timer_timeout. cbv zeta. cbn [dlg dialogs].
  change (visible (set_time_left_int (time_left_int (dlg s) - 1) (dlg s)))
    with (visible (dlg s)).
  rewrite Hv, andb_false_r.
  set (s1 := mk_session (set_time_left_int (time_left_int (dlg s) - 1) (dlg s)) (dialogs s)).
  assert (Hv1 : visible (dlg s1) = false) by exact Hv.
  assert (Hl1 : listed s1 = false) by exact Hl.
  destruct (update_before_show srv s1 Hv1 Hl1) as (Hv2 & Hl2 & Hr2).
  destruct (update_flags srv s1) as (Ht2 & _).
  repeat split; assumption.
Qed.

(** The tick that finds 1 second left on an active session. *)
Lemma last_tick srv s :
  wf s -> visible (dlg s) = true -> time_left_int (dlg s) = 1%Z ->
  time_left_int (dlg (fst (timer_timeout srv s))) = 0%Z /\
  state_of (fst (timer_timeout srv s)) = TimedOut.
Proof.
  intros Hwf Hv H1.
  set (s1 := mk_session (set_timed_out true (set_time_left_int 0 (dlg s))) (dialogs s)).
  assert (Htt : timer_timeout srv s = update srv (close s1)).
  { unfold timer_timeout, s1. cbv zeta. cbn [dlg dialogs].
    replace (time_left_int (dlg s) - 1)%Z with 0%Z by lia.
    change (time_left_int (set_time_left_int 0 (dlg s))) with 0%Z.
    change (visible (set_time_left_int 0 (dlg s))) with (visible (dlg s)).
    rewrite Hv. reflexivity. }
  rewrite Htt.
  assert (Hc : (count_occ Nat.eq_dec (dialogs s1) (self_id (dlg s1)) <= 1)%nat)
    by (destruct Hwf as (Hc & _); exact Hc).
  assert (Hl : listed (close s1) = false) by (apply close_listed; exact Hc).
  assert (Hvis : visible (dlg (close s1)) = false) by apply close_visible.
  assert (Hto : timed_out (dlg (close s1)) = true) by (rewrite close_dlg; reflexivity).
  assert (Htl : time_left_int (dlg (close s1)) = 0%Z) by (rewrite close_dlg; reflexivity).
  destruct (update_before_show srv (close s1) Hvis Hl) as (Hv2 & Hl2 & _).
  destruct (update_flags srv (close s1)) as (Ht2 & _).
  split.
  - destruct (update_cases srv (close s1)) as [H|[(e & _ & _ & H)|(_ & _ & H)]];
      rewrite H; cbn [fst]; try exact Htl.
    rewrite close_dlg. reflexivity.
  - unfold state_of. rewrite Hv2, Hl2, Ht2, Hto. reflexivity.
Qed.

(** ** C4: the countdown across a tick *)

(** A tick leaves the decremented countdown, or 0 when its poll found no
    lock. *)
Lemma timer_timeout_time srv s :
  time_left_int (dlg (fst (timer_timeout srv s))) = (time_left_int (dlg s) - 1)%Z
  \/ time_left_int (dlg (fst (timer_timeout srv s))) = 0%Z.
Proof.
  unfold timer_timeout. cbv zeta.
  match goal with |- context [update srv ?x] => set (s2 := x) end.
  assert (H2 : time_left_int (dlg s2) = (time_left_int (dlg s) - 1)%Z).
  { unfold s2. match goal with |- context [if ?c then _ else _] => destruct c end.
    - rewrite close_dlg. reflexivity.
    - reflexivity. }
  destruct (update_cases srv s2) as [H|[(e & _ & _ & H)|(_ & _ & H)]]; rewrite H; cbn [fst].
  - left. exact H2.
  - left. exact H2.
  - right. rewrite close_dlg. reflexivity.
Qed.

(** A tick leaves the decremented countdown, or 0 when the decremented
    value is a multiple of 10 and the poll finds no lock. *)
Lemma timer_timeout_time_exact srv s :
  time_left_int (dlg (fst (timer_timeout srv s)))
  = (if (((time_left_int (dlg s) - 1) mod 10 =? 0)%Z
         && poll_finds_no_lock srv (cosigner_list (dlg s)))%bool
     then 0 else time_left_int (dlg s) - 1)%Z.
Proof.
  unfold timer_timeout. cbv zeta.
  match goal with |- context [update srv ?x] => set (s2 := x) end.
  assert (H2 : time_left_int (dlg s2) = (time_left_int (dlg s) - 1)%Z
               /\ cosigner_list (dlg s2) = cosigner_list (dlg s)).
  { unfold s2. match goal with |- context [if ?c then _ else _] => destruct c end.
    - rewrite close_dlg. split; reflexivity.
    - split; reflexivity. }
  destruct H2 as (Ht2 & Hc2).
  unfold update, poll_finds_no_lock. rewrite Ht2, Hc2.
  destruct ((time_left_int (dlg s) - 1) mod 10 =? 0)%Z; cbn [andb fst]; [|exact Ht2].
  destruct (poll_locks srv (cosigner_list (dlg s)) false) as [[|]|e]; cbn [negb fst].
  - exact Ht2.
  - rewrite close_dlg. reflexivity.
  - exact Ht2.
Qed.

(** A tick whose poll forces the countdown to 0 closes the dialog. *)
Lemma timer_timeout_forced_closes srv s :
  (count_occ Nat.eq_dec (dialogs s) (self_id (dlg s)) <= 1)%nat ->
  ((time_left_int (dlg s) - 1) mod 10 = 0)%Z ->
  poll_finds_no_lock srv (cosigner_list (dlg s)) = true ->
  state_of (fst (timer_timeout srv s)) <> Active.
Proof.
  intros Hc Hm Hp. unfold timer_timeout. cbv zeta.
  match goal with |- context [update srv ?x] => set (s2 := x) end.
  assert (H2 : time_left_int (dlg s2) = (time_left_int (dlg s) - 1)%Z
               /\ cosigner_list (dlg s2) = cosigner_list (dlg s)
               /\ (count_occ Nat.eq_dec (dialogs s2) (self_id (dlg s2)) <= 1)%nat).
  { unfold s2. match goal with |- context [if ?c then _ else _] => destruct c end.
    - rewrite close_dlg. split; [reflexivity|]. split; [reflexivity|].
      match goal with |- context [close ?y] => pose proof (close_count y) as Hcc end.
      cbn [dlg dialogs] in *.
      change (self_id (set_visible false _)) with (self_id (dlg s)).
      change (self_id (set_timed_out true _)) with (self_id (dlg s)) in Hcc. lia.
    - split; [reflexivity|]. split; [reflexivity|exact Hc]. }
  destruct H2 as (Ht2 & Hc2 & Hn2).
  unfold poll_finds_no_lock in Hp.
  unfold update. rewrite Ht2, Hc2, Hm. cbn [Z.eqb].
  destruct (poll_locks srv (cosigner_list (dlg s)) false) as [[|]|e]; try discriminate.
  cbn [negb fst].
  apply closed_is_not_active; [apply close_visible|].
  apply (close_listed (mk_session (set_time_left_int 0 (dlg s2)) (dialogs s2))). exact Hn2.
Qed.

(** C4, as amended. Between consecutive ticks the countdown never
    increases while the session stays Active: a tick that leaves the
    session Active takes exactly one second off, at any sign of the
    countdown.  After any tick the countdown is the decremented value,
    or 0 when the decremented value is a multiple of 10 and the poll of
    that tick finds no lock.  So after a tick taken with at least 1
    second left the countdown is smaller than before and not negative,
    and it is still at least 1 if the session is still Active. *)
Theorem tick_decreases_positive_countdown (srv : Server) (s : Session) :
  wf s ->
  time_left_int (dlg (fst (timer_timeout srv s)))
  = (if (((time_left_int (dlg s) - 1) mod 10 =? 0)%Z
         && poll_finds_no_lock srv (cosigner_list (dlg s)))%bool
     then 0 else time_left_int (dlg s) - 1)%Z /\
  (state_of (fst (timer_timeout srv s)) = Active ->
   time_left_int (dlg (fst (timer_timeout srv s))) = (time_left_int (dlg s) - 1)%Z) /\
  ((1 <= time_left_int (dlg s))%Z ->
   (0 <= time_left_int (dlg (fst (timer_timeout srv s))) < time_left_int (dlg s))%Z) /\
  ((1 <= time_left_int (dlg s))%Z ->
   state_of (fst (timer_timeout srv s)) = Active ->
   (1 <= time_left_int (dlg (fst (timer_timeout srv s))))%Z).
Proof.
  intros Hwf. pose proof (timer_timeout_time_exact srv s) as Hex.
  assert (Hact : state_of (fst (timer_timeout srv s)) = Active ->
                 time_left_int (dlg (fst (timer_timeout srv s)))
                 = (time_left_int (dlg s) - 1)%Z).
  { intros Ha. rewrite Hex.
    destruct (Z.eqb_spec ((time_left_int (dlg s) - 1) mod 10) 0) as [Hm|_]; [|reflexivity].
    destruct (poll_finds_no_lock srv (cosigner_list (dlg s))) eqn:Hp; [|reflexivity].
    exfalso. destruct Hwf as (Hc & _).
    exact (timer_timeout_forced_closes srv s Hc Hm Hp Ha). }
  split; [exact Hex|]. split; [exact Hact|]. split.
  - intros H1. rewrite Hex.
    destruct ((((time_left_int (dlg s) - 1) mod 10 =? 0)%Z
               && poll_finds_no_lock srv (cosigner_list (dlg s)))%bool); lia.
  - intros H1 Ha. rewrite (Hact Ha).
    destruct (Z.eq_dec (time_left_int (dlg s)) 1) as [E1|Hne]; [|lia].
    exfalso.
    assert (Hv : visible (dlg s) = true).
    { destruct (visible (dlg s)) eqn:Hv; [reflexivity|]. exfalso.
      destruct Hwf as (_ & Hl & _). rewrite Hv in Hl.
      destruct (closed_tick srv s Hv Hl) as (Hv1 & Hl1 & _).
      exact (closed_is_not_active _ Hv1 Hl1 Ha). }
    destruct (last_tick srv s Hwf Hv E1) as (_ & Hto).
    rewrite Hto in Ha. discriminate.
Qed.

Lemma tick_decreases_positive_countdown_witness :
  time_left_int (dlg (fst (timer_timeout (store_with (VStr "1000") VNone 1558)
                                         (watching 42)))) = 41%Z /\
  time_left_int (dlg (fst (timer_timeout (store_with VNone VNone 1558)
                                         (watching 41)))) = 0%Z.
Proof.
  split.
  - rewrite (proj1 (tick_decreases_positive_countdown
                      (store_with (VStr "1000") VNone 1558) (watching 42)
                      ltac:(unfold wf; simpl; repeat split; [lia | discriminate]))).
    reflexivity.
  - rewrite (proj1 (tick_decreases_positive_countdown
                      (store_with VNone VNone 1558) (watching 41)
                      ltac:(unfold wf; simpl; repeat split; [lia | discriminate]))).
    reflexivity.
Defined.

(** C4 fails as stated. A lock that is already 700 seconds old when the
    session is created seeds the countdown with -100: the session handed
    out is Active with a negative countdown. *)
Lemma stale_lock_seeds_negative_countdown :
  exists s,
    session_of (show_timeout_wait_dialog (store_with (VStr "1000") (VStr "Alice") 1700)
                  tx_ok wallet_2of2 7 []) = Some s /\
    state_of s = Active /\
    (time_left_int (dlg s) < 0)%Z.
Proof.
  eexists. split; [vm_compute; reflexivity|].
  split; [reflexivity|]. vm_compute. reflexivity.
Qed.

(** ** C5: a countdown that starts below zero *)

(** The time-out test is an equality with 0: a tick taken at 0 or below
    never sets [timed_out]. *)
Lemma nonpositive_countdown_no_timeout srv s :
  (time_left_int (dlg s) <= 0)%Z ->
  timed_out (dlg (fst (timer_timeout srv s))) = timed_out (dlg s).
Proof.
  intros Hle. unfold timer_timeout. cbv zeta.
  cbn [dlg dialogs].
  change (time_left_int (set_time_left_int (time_left_int (dlg s) - 1) (dlg s)))
    with (time_left_int (dlg s) - 1)%Z.
  destruct (Z.eqb_spec (time_left_int (dlg s) - 1) 0) as [E|_]; [lia|]. cbn [andb].
  destruct (update_flags srv
    (mk_session (set_time_left_int (time_left_int (dlg s) - 1) (dlg s)) (dialogs s)))
    as (Ht & _).
  rewrite Ht. reflexivity.
Qed.

(** While the cosigner ["h1"] holds its lock, a dialog on screen with a
    countdown of 0 or less only counts further down. *)
Lemma held_lock_tick t lock name now :
  (t <= 0)%Z -> truthy lock = true ->
  timer_timeout (store_with lock name now)
    (mk_session (mk_dialog 7 [("h1", VStr "1000")] (VStr "Alice") false ["h0"] ["h1"] t true true)
                [7%nat])
  = (mk_session (mk_dialog 7 [("h1", VStr "1000")] (VStr "Alice") false ["h0"] ["h1"]
                           (t - 1) true true) [7%nat], Ok tt).
Proof.
  intros Hle Hlock. unfold timer_timeout. cbv zeta. cbn [dlg dialogs].
  change (time_left_int (set_time_left_int _ _))
    with (t - 1)%Z.
  destruct (Z.eqb_spec (t - 1) 0) as [E|_]; [lia|]. cbn [andb].
  unfold update. cbn [dlg dialogs].
  change (time_left_int (set_time_left_int _ _)) with (t - 1)%Z.
  destruct ((t - 1) mod 10 =? 0)%Z; [|reflexivity].
  cbn. rewrite Hlock. reflexivity.
Qed.

(** C5, on the code. A watched lock that is 601 seconds old at creation
    seeds the countdown with -1.  With the lock still held, the session
    is Active after any number [n] of ticks, [timed_out] is never set,
    and the countdown is [-1 - n]: the session does not become TimedOut
    on the next tick, nor on any later one. *)
Theorem stale_lock_never_times_out (n : nat) :
  option_map
    (fun s =>
       let s' := run_ticks (repeat (store_with (VStr "1000") (VStr "Alice") 1601) n) s in
       (state_of s', timed_out (dlg s'), time_left_int (dlg s')))
    (session_of (show_timeout_wait_dialog (store_with (VStr "1000") (VStr "Alice") 1601)
                   tx_ok wallet_2of2 7 []))
  = Some (Active, false, (-1 - Z.of_nat n)%Z).
Proof.
  assert (Hrun : forall m t, (t <= 0)%Z ->
            run_ticks (repeat (store_with (VStr "1000") (VStr "Alice") 1601) m)
              (mk_session (mk_dialog 7 [("h1", VStr "1000")] (VStr "Alice") false
                                     ["h0"] ["h1"] t true true) [7%nat])
            = mk_session (mk_dialog 7 [("h1", VStr "1000")] (VStr "Alice") false
                                    ["h0"] ["h1"] (t - Z.of_nat m) true true) [7%nat]).
  { induction m as [|m IH]; intros t Ht.
    - simpl. replace (t - 0)%Z with t by lia. reflexivity.
    - cbn [repeat run_ticks]. rewrite held_lock_tick by (auto; reflexivity).
      cbn [fst]. rewrite IH by lia.
      replace (t - Z.of_nat (S m))%Z with (t - 1 - Z.of_nat m)%Z by lia. reflexivity. }
  change (session_of (show_timeout_wait_dialog (store_with (VStr "1000") (VStr "Alice") 1601)
                        tx_ok wallet_2of2 7 []))
    with (Some (mk_session (mk_dialog 7 [("h1", VStr "1000")] (VStr "Alice") false
                                      ["h0"] ["h1"] (-1) true true) [7%nat])).
  cbn [option_map]. rewrite Hrun by lia. reflexivity.
Qed.

(** ** C6: a store read that fails during a poll *)

Lemma update_poll_raises srv s e :
  (time_left_int (dlg s) mod 10 = 0)%Z ->
  poll_locks srv (cosigner_list (dlg s)) false = Raised e ->
  update srv s = (s, Raised e).
Proof.
  intros Hm Hp. unfold update. rewrite Hm. cbn [Z.eqb]. rewrite Hp. reflexivity.
Qed.

Lemma update_off_cadence srv s :
  (time_left_int (dlg s) mod 10 <> 0)%Z -> update srv s = (s, Ok tt).
Proof.
  intros Hm. unfold update.
  destruct (Z.eqb_spec (time_left_int (dlg s) mod 10) 0); [contradiction|reflexivity].
Qed.

(** A tick that does not land on 0 is the decrement followed by
    [update]. *)
Lemma timer_timeout_not_zero srv s :
  time_left_int (dlg s) <> 1%Z ->
  timer_timeout srv s
  = update srv (mk_session (set_time_left_int (time_left_int (dlg s) - 1) (dlg s)) (dialogs s)).
Proof.
  intros Hne. unfold timer_timeout. cbv zeta. cbn [dlg dialogs].
  change (time_left_int (set_time_left_int (time_left_int (dlg s) - 1) (dlg s)))
    with (time_left_int (dlg s) - 1)%Z.
  destruct (Z.eqb_spec (time_left_int (dlg s) - 1) 0) as [E|_]; [lia|]. reflexivity.
Qed.

Lemma init_with_same srv tx wallet self reg :
  init_with srv srv srv tx wallet self reg = init srv tx wallet self reg /\
  show_with srv srv srv tx wallet self reg = show_timeout_wait_dialog srv tx wallet self reg.
Proof. split; reflexivity. Qed.

(** The state in which the poll of a tick begins: the decrement, and the
    time-out if it reached 0 on a dialog on screen. *)
Lemma timer_timeout_poll_raises srv s e :
  ((time_left_int (dlg s) - 1) mod 10 = 0)%Z ->
  poll_locks srv (cosigner_list (dlg s)) false = Raised e ->
  timer_timeout srv s
  = (if ((time_left_int (dlg s) - 1 =? 0)%Z && visible (dlg s))%bool
     then close (mk_session (set_timed_out true
                   (set_time_left_int (time_left_int (dlg s) - 1) (dlg s))) (dialogs s))
     else mk_session (set_time_left_int (time_left_int (dlg s) - 1) (dlg s)) (dialogs s),
     Raised e).
Proof.
  intros Hm Hp. unfold timer_timeout. cbv zeta. cbn [dlg dialogs].
  change (time_left_int (set_time_left_int (time_left_int (dlg s) - 1) (dlg s)))
    with (time_left_int (dlg s) - 1)%Z.
  change (visible (set_time_left_int (time_left_int (dlg s) - 1) (dlg s)))
    with (visible (dlg s)).
  destruct ((time_left_int (dlg s) - 1 =? 0)%Z && visible (dlg s))%bool.
  - apply update_poll_raises.
    + rewrite close_dlg. exact Hm.
    + rewrite close_dlg. exact Hp.
  - apply update_poll_raises; [exact Hm|exact Hp].
Qed.

(** C6, as amended. A store read that raises during a poll is not caught
    by the session.  In any evaluation of [update] the exception is the
    result and the session is left as the poll found it; it leaves the
    timer slot, and at creation the constructor, so that
    [show_timeout_wait_dialog], which catches [SerializationError] only,
    hands out no session.  On a tick the session is the one left by the
    decrement (and by the time-out, when the tick started from 1 second
    on a dialog on screen): the name is unchanged and the poll has
    closed nothing; after a tick from another countdown the next tick
    runs from that state and decrements again. *)
Theorem store_failure_escapes_tick (srv : Server) (e : exn) :
  (forall s,
      (time_left_int (dlg s) mod 10 = 0)%Z ->
      poll_locks srv (cosigner_list (dlg s)) false = Raised e ->
      update srv s = (s, Raised e) /\ update_with_labels srv s = (s, Raised e)) /\
  (forall s srv',
      ((time_left_int (dlg s) - 1) mod 10 = 0)%Z ->
      poll_locks srv (cosigner_list (dlg s)) false = Raised e ->
      let s1 :=
        if ((time_left_int (dlg s) - 1 =? 0)%Z && visible (dlg s))%bool
        then close (mk_session (set_timed_out true
                      (set_time_left_int (time_left_int (dlg s) - 1) (dlg s))) (dialogs s))
        else mk_session (set_time_left_int (time_left_int (dlg s) - 1) (dlg s)) (dialogs s) in
      timer_timeout srv s = (s1, Raised e) /\
      timer_timeout_with_labels srv s = (s1, Raised e) /\
      time_left_int (dlg s1) = (time_left_int (dlg s) - 1)%Z /\
      currently_signing (dlg s1) = currently_signing (dlg s) /\
      (time_left_int (dlg s) <> 1%Z ->
       s1 = mk_session (set_time_left_int (time_left_int (dlg s) - 1) (dlg s)) (dialogs s) /\
       timer_timeout srv' s1
       = (mk_session (set_time_left_int (time_left_int (dlg s) - 2) (dlg s)) (dialogs s),
          Ok tt))) /\
  (forall srv0 srv2 tx wallet self reg d0,
      init_fields srv0 tx wallet self = Ok d0 ->
      (time_left_int d0 mod 10 = 0)%Z ->
      poll_locks srv (cosigner_list d0) false = Raised e ->
      init_with srv0 srv srv2 tx wallet self reg = (reg, Raised e) /\
      session_of (show_with srv0 srv srv2 tx wallet self reg) = None /\
      (is_SerializationError e = false ->
       show_with srv0 srv srv2 tx wallet self reg = mk_show reg None (Raised e))) /\
  (forall srv0 srv1 tx wallet self reg d0 s1,
      init_fields srv0 tx wallet self = Ok d0 ->
      update_with_labels srv1 (mk_session (set_my_qtimer true d0) reg) = (s1, Ok tt) ->
      (time_left_int (dlg s1) mod 10 = 0)%Z ->
      poll_locks srv (cosigner_list (dlg s1)) false = Raised e ->
      init_with srv0 srv1 srv tx wallet self reg = (dialogs s1, Raised e) /\
      session_of (show_with srv0 srv1 srv tx wallet self reg) = None /\
      (is_SerializationError e = false ->
       show_with srv0 srv1 srv tx wallet self reg = mk_show (dialogs s1) None (Raised e))).
Proof.
  assert (Hup : forall s, (time_left_int (dlg s) mod 10 = 0)%Z ->
                  poll_locks srv (cosigner_list (dlg s)) false = Raised e ->
                  update srv s = (s, Raised e) /\ update_with_labels srv s = (s, Raised e)).
  { intros s Hm Hp. pose proof (update_poll_raises srv s e Hm Hp) as Hu.
    split; [exact Hu|]. unfold update_with_labels. rewrite Hu. reflexivity. }
  split; [exact Hup|]. split; [|split].
  - intros s srv' Hm Hp. cbv zeta.
    pose proof (timer_timeout_poll_raises srv s e Hm Hp) as Htt.
    split; [exact Htt|].
    split; [unfold timer_timeout_with_labels; rewrite Htt; reflexivity|].
    split.
    { destruct ((time_left_int (dlg s) - 1 =? 0)%Z && visible (dlg s))%bool;
        [rewrite close_dlg|]; reflexivity. }
    split.
    { destruct ((time_left_int (dlg s) - 1 =? 0)%Z && visible (dlg s))%bool;
        [rewrite close_dlg|]; reflexivity. }
    intros Hne.
    destruct (Z.eqb_spec (time_left_int (dlg s) - 1) 0) as [E|_]; [lia|]. cbn [andb].
    split; [reflexivity|].
    assert (H9 : ((time_left_int (dlg s) - 2) mod 10 = 9)%Z).
    { revert Hm. generalize (time_left_int (dlg s)). intros x Hx.
      Z.to_euclidean_division_equations. lia. }
    rewrite timer_timeout_not_zero.
    + cbn [dlg dialogs].
      change (time_left_int (set_time_left_int (time_left_int (dlg s) - 1) (dlg s)))
        with (time_left_int (dlg s) - 1)%Z.
      replace (time_left_int (dlg s) - 1 - 1)%Z with (time_left_int (dlg s) - 2)%Z by lia.
      rewrite update_off_cadence; [reflexivity|].
      cbn [dlg].
      change (time_left_int (set_time_left_int (time_left_int (dlg s) - 2) _))
        with (time_left_int (dlg s) - 2)%Z.
      rewrite H9. discriminate.
    + cbn [dlg].
      change (time_left_int (set_time_left_int (time_left_int (dlg s) - 1) (dlg s)))
        with (time_left_int (dlg s) - 1)%Z.
      intros E. replace (time_left_int (dlg s) - 2)%Z with 0%Z in H9 by lia.
      vm_compute in H9. discriminate.
  - intros srv0 srv2 tx wallet self reg d0 Hinit Hm Hp.
    assert (Hi : init_with srv0 srv srv2 tx wallet self reg = (reg, Raised e)).
    { unfold init_with, timer_start. rewrite Hinit. cbn [dlg dialogs].
      rewrite (proj2 (Hup (mk_session (set_my_qtimer true d0) reg) Hm Hp)). reflexivity. }
    split; [exact Hi|]. unfold session_of, show_with. rewrite Hi.
    split; [destruct (is_SerializationError e); reflexivity|].
    intros ->. reflexivity.
  - intros srv0 srv1 tx wallet self reg d0 s1 Hinit H1 Hm Hp.
    assert (Hi : init_with srv0 srv1 srv tx wallet self reg = (dialogs s1, Raised e)).
    { unfold init_with, timer_start. rewrite Hinit. cbn [dlg dialogs].
      rewrite H1, (proj2 (Hup s1 Hm Hp)). reflexivity. }
    split; [exact Hi|]. unfold session_of, show_with. rewrite Hi.
    split; [destruct (is_SerializationError e); reflexivity|].
    intros ->. reflexivity.
Qed.

(** A failing poll on the tick from 21 seconds, then the tick from 20;
    and a store that fails after the scan of the constructor. *)
Lemma store_failure_escapes_tick_witness :
  timer_timeout unavailable_store (watching 21) = (watching 20, Raised unavailable) /\
  timer_timeout (store_with (VStr "1000") VNone 1581) (watching 20) = (watching 19, Ok tt) /\
  show_with (store_with VNone VNone 1500) unavailable_store unavailable_store
    tx_ok wallet_2of2 7 [3%nat]
  = mk_show [3%nat] None (Raised unavailable).
Proof.
  destruct (store_failure_escapes_tick unavailable_store unavailable) as (_ & Htick & Hinit & _).
  pose proof (Htick (watching 21) (store_with (VStr "1000") VNone 1581) eq_refl eq_refl)
    as Ht.
  cbv zeta in Ht. destruct Ht as (H1 & _ & _ & _ & H2).
  destruct (H2 ltac:(discriminate)) as (_ & H3).
  destruct (Hinit (store_with VNone VNone 1500) unavailable_store tx_ok wallet_2of2
              7%nat [3%nat]
              (mk_dialog 7 [("h1", VNone)] VNone false ["h0"] ["h1"] 600 false false)
              eq_refl eq_refl eq_refl) as (_ & _ & H4).
  split; [exact H1|]. split; [exact H3|]. exact (H4 eq_refl).
Defined.

(** C6 fails as stated. The failure of a store read during the poll of
    a tick is not skipped: it is the result of [update] and of the timer
    slot, which do not end normally. *)
Lemma store_failure_is_not_skipped :
  snd (timer_timeout unavailable_store (watching 21)) = Raised unavailable /\
  snd (timer_timeout unavailable_store (watching 21)) <> Ok tt /\
  snd (update unavailable_store (watching 20)) = Raised unavailable.
Proof.
  split; [reflexivity|]. split; [|reflexivity].
  change (snd (timer_timeout unavailable_store (watching 21))) with (@Raised unit unavailable).
  discriminate.
Qed.

(** At creation a failing store read ends the constructor;
    [show_timeout_wait_dialog] lets it through and hands out no
    session. *)
Lemma store_failure_at_creation :
  sr_return (show_timeout_wait_dialog unavailable_store tx_ok wallet_2of2 7 [])
  = Raised unavailable.
Proof. reflexivity. Qed.

(** ** C7: the signer name *)

Lemma run_events_name evs s :
  currently_signing (dlg (run_events evs s)) = currently_signing (dlg s).
Proof.
  revert s. induction evs as [|[srv|] r IH]; intros s; simpl; [reflexivity| |].
  - rewrite IH.
    destruct (timer_timeout_same_identity srv s) as (_ & _ & Hn & _). exact Hn.
  - rewrite IH, close_dlg. reflexivity.
Qed.

(** C7, as amended. The signer name is read at session creation only:
    for each watch-only keystore whose lock value is truthy the name key
    is read and, when non-empty, kept, the last such keystore winning.
    No tick, poll or closing reads a name key or writes the name: a name
    set at creation stays when the lock clears, and a name that appears
    in the store later is not picked up. *)
Theorem signer_name_fixed_at_creation (srv : Server) (tx : Transaction) (wallet : Wallet)
  (self : nat) (reg : list nat) (s : Session) :
  session_of (show_timeout_wait_dialog srv tx wallet self reg) = Some s ->
  currently_signing (dlg s) = name_at_creation srv wallet /\
  forall evs, currently_signing (dlg (run_events evs s)) = name_at_creation srv wallet.
Proof.
  intros Hs.
  assert (Hn : currently_signing (dlg s) = name_at_creation srv wallet).
  { revert Hs. unfold show_timeout_wait_dialog, session_of.
    destruct (init srv tx wallet self reg) as [reg1 [d|e]] eqn:Hinit.
    - cbn. intros H. injection H as <-. cbn.
      destruct (init_ok _ _ _ _ _ _ _ Hinit) as (d0 & Hf & Hd & _).
      rewrite <- (init_fields_name _ _ _ _ _ Hf), Hd.
      pose proof (same_identity_trans _ _ _
                    (update_same_identity srv (mk_session (set_my_qtimer true d0) reg))
                    (update_same_identity srv
                       (fst (update srv (mk_session (set_my_qtimer true d0) reg)))))
        as (_ & _ & Hname & _).
      exact Hname.
    - destruct (is_SerializationError e); cbn; discriminate. }
  split; [exact Hn|].
  intros evs. rewrite run_events_name. exact Hn.
Qed.

Lemma signer_name_fixed_at_creation_witness :
  exists s,
    session_of (show_timeout_wait_dialog (store_with (VStr "1000") (VStr "Alice") 1500)
                  tx_ok wallet_2of2 7 []) = Some s /\
    currently_signing
      (dlg (run_events [Tick (store_with VNone VNone 1501);
                        Tick (store_with (VStr "1400") (VStr "Bob") 1502); Close] s))
    = VStr "Alice".
Proof.
  eexists. split; [reflexivity|].
  exact (proj2 (signer_name_fixed_at_creation
                  (store_with (VStr "1000") (VStr "Alice") 1500) tx_ok wallet_2of2 7 [] _
                  eq_refl)
               [Tick (store_with VNone VNone 1501);
                Tick (store_with (VStr "1400") (VStr "Bob") 1502); Close]).
Defined.

(** C7 fails as stated. A session created while the lock is held
    without a name: when the name key later resolves to ["Alice"], the
    poll at 90 seconds (and every tick around it) leaves
    [currently_signing] at [None]. *)
Lemma later_name_not_picked_up :
  option_map
    (fun s =>
       let s' := run_ticks (repeat (store_with (VStr "1000") (VStr "Alice") 1510) 10) s in
       (state_of s', time_left_int (dlg s'), currently_signing (dlg s')))
    (session_of (show_timeout_wait_dialog (store_with (VStr "1000") VNone 1500)
                   tx_ok wallet_2of2 7 []))
  = Some (Active, 90%Z, VNone) /\
  get (store_with (VStr "1000") (VStr "Alice") 1510) "h1_name" = Ok (VStr "Alice").
Proof. split; vm_compute; reflexivity. Qed.

(** * Further properties of the dialog *)

(** ** Sessions the code can produce *)

(** X1. Every session the code can produce, by [show_timeout_wait_dialog]
    for a new object followed by any timer ticks and closings, keeps the
    registry consistent: the dialog is listed in [dialogs] at most once,
    it is listed exactly while it is on screen, and once [timed_out] is
    set it is off screen and unlisted. *)
Theorem reachable_session_invariant (s : Session) :
  reachable s ->
  (count_occ Nat.eq_dec (dialogs s) (self_id (dlg s)) <= 1)%nat /\
  listed s = visible (dlg s) /\
  (timed_out (dlg s) = true -> visible (dlg s) = false /\ listed s = false).
Proof.
  intros Hr. destruct (reachable_wf s Hr) as (Hc & Hl & Ht).
  split; [exact Hc|]. split; [exact Hl|].
  intros Hto. split; [exact (Ht Hto)|]. rewrite Hl. exact (Ht Hto).
Qed.

Lemma reachable_session_invariant_witness :
  exists s,
    reachable s /\ timed_out (dlg s) = true /\
    visible (dlg s) = false /\ listed s = false.
Proof.
  exists (fst (timer_timeout (store_with (VStr "1000") VNone 1600)
            (mk_session (mk_dialog 7 [("h1", VStr "1000")] VNone false ["h0"] ["h1"]
                                   1 true true) [3%nat; 7%nat]))).
  assert (Hr : reachable
            (fst (timer_timeout (store_with (VStr "1000") VNone 1600)
               (mk_session (mk_dialog 7 [("h1", VStr "1000")] VNone false ["h0"] ["h1"]
                                      1 true true) [3%nat; 7%nat])))).
  { apply reach_tick.
    apply (reach_show (store_with (VStr "1000") VNone 1599) tx_ok wallet_2of2 7 [3%nat]).
    - simpl. intros [H|[]]. discriminate H.
    - reflexivity. }
  split; [exact Hr|]. split; [reflexivity|].
  exact (proj2 (proj2 (reachable_session_invariant _ Hr)) eq_refl).
Defined.

(** X2. No handler stops the one-second timer: in every session the code
    can produce, closed ones included, the timer started by
    [timer_start] is still running. *)
Theorem timer_never_stopped (s : Session) :
  reachable s -> my_qtimer (dlg s) = true.
Proof.
  induction 1 as [srv tx wallet self reg s Hfresh Hs | srv s _ IH | s _ IH].
  - apply (show_session_fields _ _ _ _ _ _ Hfresh Hs).
  - destruct (timer_timeout_same_identity srv s) as (_ & _ & _ & _ & _ & Hq).
    rewrite Hq. exact IH.
  - rewrite close_dlg. exact IH.
Qed.

Lemma timer_never_stopped_witness :
  exists s,
    reachable s /\ state_of s = Cancelled /\ my_qtimer (dlg s) = true.
Proof.
  exists (close (mk_session (mk_dialog 7 [("h1", VStr "1000")] VNone false ["h0"] ["h1"]
                                       100 true true) [7%nat])).
  assert (Hr : reachable
            (close (mk_session (mk_dialog 7 [("h1", VStr "1000")] VNone false ["h0"] ["h1"]
                                          100 true true) [7%nat]))).
  { apply reach_close.
    apply (reach_show (store_with (VStr "1000") VNone 1500) tx_ok wallet_2of2 7 []).
    - intros [].
    - reflexivity. }
  split; [exact Hr|]. split; [reflexivity|].
  exact (timer_never_stopped _ Hr).
Defined.

(** ** A closed session *)

(** X3. A closed session stays closed: whatever ticks and closings
    follow, the dialog never comes back on screen, [dialogs] is not
    touched again, and [timed_out] keeps its value.  So a session that
    was cancelled or completed is never marked timed out afterwards, and
    a TimedOut session stays TimedOut. *)
Theorem closed_session_stays_closed (evs : list event) (s : Session) :
  state_of s <> Active ->
  visible (dlg (run_events evs s)) = false /\
  dialogs (run_events evs s) = dialogs s /\
  timed_out (dlg (run_events evs s)) = timed_out (dlg s) /\
  state_of (run_events evs s) <> Active /\
  (state_of s = TimedOut -> state_of (run_events evs s) = TimedOut).
Proof.
  intros Hna. destruct (not_active_fields s Hna) as (Hv & Hl).
  assert (G : visible (dlg (run_events evs s)) = false /\
              listed (run_events evs s) = false /\
              dialogs (run_events evs s) = dialogs s /\
              timed_out (dlg (run_events evs s)) = timed_out (dlg s)).
  { clear Hna. revert s Hv Hl. induction evs as [|[srv|] r IH]; intros s Hv Hl.
    - simpl. auto.
    - cbn [run_events].
      destruct (closed_tick srv s Hv Hl) as (Hv1 & Hl1 & Hr1 & Ht1).
      destruct (IH _ Hv1 Hl1) as (A & B & C & D).
      repeat split; congruence.
    - cbn [run_events].
      assert (Hc : close s = s).
      { rewrite (close_unlisted s Hl).
        destruct s as [d reg]. simpl in *. destruct d. simpl in *. subst. reflexivity. }
      rewrite Hc. apply IH; assumption. }
  destruct G as (A & B & C & D).
  split; [exact A|]. split; [exact C|]. split; [exact D|].
  split; [apply closed_is_not_active; assumption|].
  intros Hto. unfold state_of in *. rewrite A, B, D. rewrite Hv, Hl in Hto.
  cbn [orb] in *. destruct (timed_out (dlg s)); [reflexivity|].
  destruct (time_left_int (dlg s) =? 0)%Z; discriminate.
Qed.

Lemma closed_session_stays_closed_witness :
  state_of (close (watching 42)) <> Active /\
  timed_out (dlg (run_events [Tick (store_with VNone VNone 1600); Close;
                              Tick unavailable_store]
                             (close (watching 42)))) = false /\
  dialogs (run_events [Tick (store_with VNone VNone 1600); Close;
                       Tick unavailable_store]
                      (close (watching 42))) = [].
Proof.
  assert (Hna : state_of (close (watching 42)) <> Active) by (vm_compute; discriminate).
  split; [exact Hna|].
  destruct (closed_session_stays_closed
              [Tick (store_with VNone VNone 1600); Close; Tick unavailable_store]
              (close (watching 42)) Hna) as (_ & Hd & Ht & _).
  split; [exact Ht | exact Hd].
Defined.

(** ** When a tick times a session out *)

(** X4. A tick sets [timed_out] exactly when it finds 1 second left on a
    dialog that is on screen: from any other countdown, or on a hidden
    dialog, no tick ever marks the session timed out, whatever the store
    answers. *)
Theorem timed_out_exactly_at_zero (srv : Server) (s : Session) :
  timed_out (dlg s) = false ->
  (timed_out (dlg (fst (timer_timeout srv s))) = true
   <-> time_left_int (dlg s) = 1%Z /\ visible (dlg s) = true).
Proof.
  intros Hto. unfold timer_timeout. cbv zeta. cbn [dlg dialogs].
  change (time_left_int (set_time_left_int (time_left_int (dlg s) - 1) (dlg s)))
    with (time_left_int (dlg s) - 1)%Z.
  change (visible (set_time_left_int (time_left_int (dlg s) - 1) (dlg s)))
    with (visible (dlg s)).
  destruct (Z.eqb_spec (time_left_int (dlg s) - 1) 0) as [E|E];
    destruct (visible (dlg s)) eqn:Hv; cbn [andb];
    match goal with |- context [update srv ?x] =>
      destruct (update_flags srv x) as (Ht & _); rewrite Ht end.
  - rewrite close_dlg. cbn. split; [intros _; split; [lia|reflexivity] | reflexivity].
  - cbn. rewrite Hto. split; [discriminate | intros [_ H]; discriminate H].
  - cbn. rewrite Hto. split; [discriminate | intros [H _]; lia].
  - cbn. rewrite Hto. split; [discriminate | intros [H _]; lia].
Qed.

Lemma timed_out_exactly_at_zero_witness :
  timed_out (dlg (fst (timer_timeout unavailable_store (watching 1)))) = true /\
  timed_out (dlg (fst (timer_timeout unavailable_store (watching 0)))) <> true.
Proof.
  split.
  - apply (timed_out_exactly_at_zero unavailable_store (watching 1) eq_refl).
    split; reflexivity.
  - intros H.
    apply (timed_out_exactly_at_zero unavailable_store (watching 0) eq_refl) in H.
    destruct H as [H _]. discriminate H.
Defined.

(** ** Ticks and the store *)

(** X5. A tick whose decremented countdown is not a multiple of 10 does
    not consult the store: whatever the store is (also one whose reads
    fail), the tick ends normally and only takes one second off the
    countdown. *)
Theorem off_cadence_tick_ignores_store (srv : Server) (s : Session) :
  ((time_left_int (dlg s) - 1) mod 10 <> 0)%Z ->
  timer_timeout srv s
  = (mk_session (set_time_left_int (time_left_int (dlg s) - 1) (dlg s)) (dialogs s), Ok tt).
Proof.
  intros Hm.
  assert (Hne : time_left_int (dlg s) <> 1%Z).
  { intros E. apply Hm. rewrite E. reflexivity. }
  rewrite (timer_timeout_not_zero srv s Hne).
  apply update_off_cadence. exact Hm.
Qed.

Lemma off_cadence_tick_ignores_store_witness :
  timer_timeout unavailable_store (watching 42) = (watching 41, Ok tt).
Proof.
  apply (off_cadence_tick_ignores_store unavailable_store (watching 42)).
  vm_compute. discriminate.
Defined.

(** X6. When the poll of [update] ends normally, it reports a lock
    exactly when some watched fingerprint's lock key holds a truthy
    value; and it ends normally only if every watched lock key could be
    read. *)
Theorem poll_locks_finds_held_lock (srv : Server) (hashes : list string) (b : bool) :
  poll_locks srv hashes false = Ok b ->
  (forall h, In h hashes -> exists v, get srv (h ++ "_lock") = Ok v) /\
  (b = true <->
   exists h v, In h hashes /\ get srv (h ++ "_lock") = Ok v /\ truthy v = true).
Proof.
  intros Hp. pose proof (poll_locks_ok_reads _ _ _ _ Hp) as Hok.
  split; [exact Hok|].
  rewrite (poll_locks_existsb srv hashes false Hok) in Hp. injection Hp as <-.
  cbn [orb]. rewrite existsb_exists. split.
  - intros (h & Hin & Hh). unfold reads_held in Hh.
    destruct (get srv (h ++ "_lock")) as [v|e] eqn:Hg; [|discriminate].
    exists h, v. auto.
  - intros (h & v & Hin & Hg & Ht). exists h. split; [exact Hin|].
    unfold reads_held. rewrite Hg. exact Ht.
Qed.

Lemma poll_locks_finds_held_lock_witness :
  exists h v, In h ["h0"; "h1"] /\
    get (store_with (VStr "1000") VNone 1500) (h ++ "_lock") = Ok v /\ truthy v = true.
Proof.
  apply (proj2 (poll_locks_finds_held_lock (store_with (VStr "1000") VNone 1500)
                  ["h0"; "h1"] true eq_refl)).
  reflexivity.
Defined.

(** X7. [cosigner_list] is a set, iterated in no particular order: when
    every watched lock key can be read, the result of the poll is the same
    for every order of iteration. *)
Theorem poll_locks_order_irrelevant (srv : Server) (hashes hashes' : list string) :
  Permutation hashes hashes' ->
  (forall h, In h hashes -> exists v, get srv (h ++ "_lock") = Ok v) ->
  poll_locks srv hashes false = poll_locks srv hashes' false.
Proof.
  intros Hperm Hok.
  assert (Hok' : forall h, In h hashes' -> exists v, get srv (h ++ "_lock") = Ok v).
  { intros h Hin. apply Hok. apply (Permutation_in h (Permutation_sym Hperm) Hin). }
  rewrite (poll_locks_existsb srv hashes false Hok),
          (poll_locks_existsb srv hashes' false Hok').
  f_equal. cbn [orb].
  destruct (existsb (reads_held srv) hashes) eqn:E1;
    destruct (existsb (reads_held srv) hashes') eqn:E2; try reflexivity.
  - apply existsb_exists in E1 as (h & Hin & Hh).
    assert (E : existsb (reads_held srv) hashes' = true).
    { apply existsb_exists. exists h. split; [apply (Permutation_in h Hperm Hin)|exact Hh]. }
    congruence.
  - apply existsb_exists in E2 as (h & Hin & Hh).
    assert (E : existsb (reads_held srv) hashes = true).
    { apply existsb_exists. exists h.
      split; [apply (Permutation_in h (Permutation_sym Hperm) Hin)|exact Hh]. }
    congruence.
Qed.

Lemma poll_locks_order_irrelevant_witness :
  poll_locks (store_two_locks 1500) ["h0"; "h1"; "h2"] false
  = poll_locks (store_two_locks 1500) ["h2"; "h0"; "h1"] false.
Proof.
  apply poll_locks_order_irrelevant.
  - apply Permutation_sym. apply (Permutation_cons_app ["h0"; "h1"] [] "h2").
    apply Permutation_refl.
  - intros h [<-|[<-|[<-|[]]]]; eexists; reflexivity.
Defined.

(** ** The countdown while a lock is held *)

(** With a lock held and more than 1 second left, a tick only takes one
    second off. *)
Lemma held_tick srv s :
  poll_locks srv (cosigner_list (dlg s)) false = Ok true ->
  time_left_int (dlg s) <> 1%Z ->
  timer_timeout srv s
  = (mk_session (set_time_left_int (time_left_int (dlg s) - 1) (dlg s)) (dialogs s), Ok tt).
Proof.
  intros Hp Hne. rewrite (timer_timeout_not_zero srv s Hne).
  unfold update. cbn [dlg dialogs].
  change (cosigner_list (set_time_left_int (time_left_int (dlg s) - 1) (dlg s)))
    with (cosigner_list (dlg s)).
  rewrite Hp. cbn [negb].
  match goal with |- context [if ?c then _ else _] => destruct c end; reflexivity.
Qed.

Lemma held_run srvs s :
  (forall srv, In srv srvs -> poll_locks srv (cosigner_list (dlg s)) false = Ok true) ->
  (Z.of_nat (List.length srvs) < time_left_int (dlg s))%Z ->
  run_ticks srvs s
  = mk_session (set_time_left_int (time_left_int (dlg s) - Z.of_nat (List.length srvs)) (dlg s))
               (dialogs s).
Proof.
  revert s. induction srvs as [|srv r IH]; intros s Hheld Hlen.
  - cbn [run_ticks List.length Z.of_nat]. rewrite Z.sub_0_r.
    destruct s as [d reg]. destruct d. reflexivity.
  - cbn [run_ticks]. cbn [List.length] in Hlen.
    rewrite held_tick; [|apply Hheld; left; reflexivity|lia].
    cbn [fst]. rewrite IH.
    + cbn [dlg dialogs].
      change (time_left_int (set_time_left_int (time_left_int (dlg s) - 1) (dlg s)))
        with (time_left_int (dlg s) - 1)%Z.
      replace (time_left_int (dlg s) - 1 - Z.of_nat (List.length r))%Z
        with (time_left_int (dlg s) - Z.of_nat (List.length (srv :: r)))%Z
        by (cbn [List.length]; lia).
      reflexivity.
    + intros srv' Hin. apply Hheld. right. exact Hin.
    + cbn [dlg].
      change (time_left_int (set_time_left_int (time_left_int (dlg s) - 1) (dlg s)))
        with (time_left_int (dlg s) - 1)%Z.
      lia.
Qed.

(** X8. While some watched lock stays held, an active session with [t]
    seconds left counts down one second per tick and nothing else
    changes: after fewer than [t] ticks it is the same session with the
    ticks taken off, still Active, and the tick number [t] leaves it
    TimedOut with the countdown at 0. *)
Theorem held_lock_counts_down_to_timeout (srvs : list Server) (s : Session) :
  wf s ->
  state_of s = Active ->
  (forall srv, In srv srvs -> poll_locks srv (cosigner_list (dlg s)) false = Ok true) ->
  ((Z.of_nat (List.length srvs) < time_left_int (dlg s))%Z ->
   run_ticks srvs s
   = mk_session (set_time_left_int (time_left_int (dlg s) - Z.of_nat (List.length srvs)) (dlg s))
                (dialogs s) /\
   state_of (run_ticks srvs s) = Active) /\
  ((1 <= time_left_int (dlg s))%Z ->
   Z.of_nat (List.length srvs) = time_left_int (dlg s) ->
   time_left_int (dlg (run_ticks srvs s)) = 0%Z /\
   state_of (run_ticks srvs s) = TimedOut).
Proof.
  intros Hwf Ha Hheld.
  destruct (active_fields s Hwf Ha) as [Hv Ht].
  split.
  - intros Hlen. rewrite (held_run srvs s Hheld Hlen). split; [reflexivity|].
    unfold state_of. cbn [dlg]. 
    change (visible (set_time_left_int _ (dlg s))) with (visible (dlg s)).
    rewrite Hv. reflexivity.
  - intros H1 Hlen.
    destruct (exists_last (l := srvs)) as (front & srv & ->).
    { intros ->. cbn in Hlen. lia. }
    rewrite length_app in Hlen. cbn [List.length] in Hlen.
    assert (Hrun : forall l1 l2 s0, run_ticks (l1 ++ l2) s0 = run_ticks l2 (run_ticks l1 s0)).
    { induction l1 as [|x l1 IH]; intros l2 s0; [reflexivity|]. cbn [app run_ticks]. apply IH. }
    rewrite Hrun. cbn [run_ticks].
    rewrite (held_run front s).
    + apply last_tick.
      * destruct Hwf as (Hc & Hl & Hto). split; [exact Hc|]. split; [exact Hl|exact Hto].
      * exact Hv.
      * cbn [dlg].
        change (time_left_int (set_time_left_int _ (dlg s)))
          with (time_left_int (dlg s) - Z.of_nat (List.length front))%Z.
        lia.
    + intros srv' Hin. apply Hheld. apply in_or_app. left. exact Hin.
    + lia.
Qed.

Lemma held_lock_counts_down_to_timeout_witness :
  state_of (run_ticks (repeat (store_with (VStr "1000") VNone 1600) 3) (watching 3))
  = TimedOut.
Proof.
  apply (held_lock_counts_down_to_timeout
           (repeat (store_with (VStr "1000") VNone 1600) 3) (watching 3)).
  - unfold wf. simpl. repeat split; [lia | discriminate].
  - reflexivity.
  - intros srv Hin. apply repeat_spec in Hin. subst srv. reflexivity.
  - simpl. lia.
  - reflexivity.
Defined.

(** ** Creation while a lock is held *)

Lemma update_idle srv s :
  (time_left_int (dlg s) mod 10 <> 0)%Z
  \/ poll_locks srv (cosigner_list (dlg s)) false = Ok true ->
  update srv s = (s, Ok tt).
Proof.
  intros [Hm|Hp]; [apply update_off_cadence; exact Hm|].
  unfold update. rewrite Hp. cbn [negb].
  match goal with |- context [if ?c then _ else _] => destruct c end; reflexivity.
Qed.

Lemma update_with_labels_idle srv s :
  (time_left_int (dlg s) mod 10 <> 0)%Z
  \/ poll_locks srv (cosigner_list (dlg s)) false = Ok true ->
  refresh_labels (dlg s) = Ok tt ->
  update_with_labels srv s = (s, Ok tt).
Proof.
  intros Hidle Hlab. unfold update_with_labels.
  rewrite (update_idle srv s Hidle), Hlab. reflexivity.
Qed.

(** X9. When the name found at creation is [None] or a string, and the
    seed is not a multiple of 10 or some watched fingerprint holds a
    lock at creation, the two evaluations inside the constructor change
    nothing: [show_timeout_wait_dialog] hands out the dialog with the
    seeded countdown, on screen, its timer running, and appended at the
    end of [dialogs]. *)
Theorem held_lock_session_starts_from_seed (srv : Server) (tx : Transaction)
  (wallet : Wallet) (self : nat) (reg : list nat) (d0 : TimeoutWaitDialog) :
  init_fields srv tx wallet self = Ok d0 ->
  (forall z, currently_signing d0 <> VInt z) ->
  (time_left_int d0 mod 10 <> 0)%Z
  \/ poll_locks srv (cosigner_list d0) false = Ok true ->
  show_timeout_wait_dialog srv tx wallet self reg
  = mk_show (reg ++ [self]) None
            (Ok (Some (set_visible true (set_my_qtimer true d0)))).
Proof.
  intros Hinit Hname Hidle.
  destruct (init_fields_fresh _ _ _ _ _ Hinit) as (Hid & _ & _).
  assert (Hlab : refresh_labels (dlg (mk_session (set_my_qtimer true d0) reg)) = Ok tt).
  { apply refresh_labels_ok. intros z _. exact (Hname z). }
  unfold show_timeout_wait_dialog, init. rewrite Hinit. unfold timer_start.
  cbn [dlg dialogs].
  rewrite (update_with_labels_idle srv (mk_session (set_my_qtimer true d0) reg) Hidle Hlab).
  rewrite (update_with_labels_idle srv (mk_session (set_my_qtimer true d0) reg) Hidle Hlab).
  cbn [dlg dialogs]. unfold show.
  change (self_id (set_my_qtimer true d0)) with (self_id d0). rewrite Hid. reflexivity.
Qed.

Lemma held_lock_session_starts_from_seed_witness :
  option_map (fun s => (state_of s, time_left_int (dlg s), dialogs s))
    (session_of (show_timeout_wait_dialog (store_with (VStr "1000") (VStr "Alice") 1500)
                   tx_ok wallet_2of2 7 [3%nat]))
  = Some (Active, 100%Z, [3%nat; 7%nat]).
Proof.
  rewrite (held_lock_session_starts_from_seed
             (store_with (VStr "1000") (VStr "Alice") 1500) tx_ok wallet_2of2 7 [3%nat]
             (mk_dialog 7 [("h1", VStr "1000")] (VStr "Alice") false ["h0"] ["h1"]
                        100 false false)
             eq_refl ltac:(intros z; discriminate) (or_intror eq_refl)).
  reflexivity.
Defined.

(** ** The other dialogs *)

Lemma list_remove_others x l l' (f : nat -> bool) :
  f x = false -> list_remove x l = Some l' -> filter f l' = filter f l.
Proof.
  intros Hf. revert l'. induction l as [|y l IH]; intros l' Hr; simpl in Hr; [discriminate|].
  destruct (Nat.eqb_spec y x) as [->|Hne].
  - injection Hr as <-. simpl. rewrite Hf. reflexivity.
  - destruct (list_remove x l) as [r|]; simpl in Hr; [|discriminate].
    injection Hr as <-. simpl. rewrite (IH r eq_refl). reflexivity.
Qed.

Lemma close_others s (f : nat -> bool) :
  f (self_id (dlg s)) = false ->
  filter f (dialogs (close s)) = filter f (dialogs s).
Proof.
  intros Hf. unfold close, closeEvent.
  destruct (list_remove (self_id (dlg s)) (dialogs s)) as [l|] eqn:E; cbn [dialogs].
  - apply (list_remove_others _ _ _ f Hf E).
  - reflexivity.
Qed.

Lemma update_others srv s (f : nat -> bool) :
  f (self_id (dlg s)) = false ->
  filter f (dialogs (fst (update srv s))) = filter f (dialogs s).
Proof.
  intros Hf.
  destruct (update_cases srv s) as [H|[(e & _ & _ & H)|(_ & _ & H)]]; rewrite H; cbn [fst];
    try reflexivity.
  apply (close_others (mk_session (set_time_left_int 0 (dlg s)) (dialogs s)) f). exact Hf.
Qed.

Lemma timer_timeout_others srv s (f : nat -> bool) :
  f (self_id (dlg s)) = false ->
  filter f (dialogs (fst (timer_timeout srv s))) = filter f (dialogs s).
Proof.
  intros Hf. unfold timer_timeout. cbv zeta.
  match goal with |- context [if ?c then ?a else ?b] =>
    assert (H2 : filter f (dialogs (if c then a else b)) = filter f (dialogs s)
                 /\ self_id (dlg (if c then a else b)) = self_id (dlg s));
    [destruct c|] end.
  - split; [|rewrite close_dlg; reflexivity].
    apply (close_others
             (mk_session (set_timed_out true
                (set_time_left_int (time_left_int (dlg s) - 1) (dlg s))) (dialogs s)) f).
    exact Hf.
  - split; reflexivity.
  - destruct H2 as (Hd & Hid). rewrite update_others; [exact Hd|].
    rewrite Hid. exact Hf.
Qed.

(** X10. Whatever ticks and closings a dialog goes through, it only ever
    removes itself from [dialogs]: the entries of the other dialogs stay,
    in the same order and the same number. *)
Theorem other_dialogs_untouched (evs : list event) (s : Session) :
  filter (fun x => negb (x =? self_id (dlg s))%nat) (dialogs (run_events evs s))
  = filter (fun x => negb (x =? self_id (dlg s))%nat) (dialogs s).
Proof.
  assert (G : forall (self : nat) s0, self_id (dlg s0) = self ->
            filter (fun x => negb (x =? self)%nat) (dialogs (run_events evs s0))
            = filter (fun x => negb (x =? self)%nat) (dialogs s0)).
  { intros self. induction evs as [|[srv|] r IH]; intros s0 Hid; [reflexivity| |].
    - cbn [run_events]. rewrite IH.
      + apply timer_timeout_others. rewrite Hid, Nat.eqb_refl. reflexivity.
      + destruct (timer_timeout_same_identity srv s0) as (H & _). rewrite H. exact Hid.
    - cbn [run_events]. rewrite IH.
      + apply close_others. rewrite Hid, Nat.eqb_refl. reflexivity.
      + rewrite close_dlg. exact Hid. }
  apply G. reflexivity.
Qed.

Lemma other_dialogs_untouched_example :
  dialogs (run_events [Tick (store_with VNone VNone 1600); Close]
             (mk_session (dlg (watching 31)) [3%nat; 7%nat; 9%nat]))
  = [3%nat; 9%nat].
Proof. reflexivity. Qed.

(** ** Failures inside the constructor *)

Lemma py_int_truthy_raises v e :
  truthy v = true -> py_int v = Raised e -> exn_cls e = ValueError.
Proof.
  destruct v as [|str|z]; simpl; intros Ht Hp; try discriminate.
  destruct (int_of_string str); [discriminate|]. injection Hp as <-. reflexivity.
Qed.

Lemma seed_time_left_unparsable srv pre h v post cur e nowv now :
  get_current_time srv = Ok nowv ->
  py_int nowv = Ok now ->
  Forall (fun item => truthy (snd item) = true -> exists z, py_int (snd item) = Ok z) pre ->
  truthy v = true ->
  py_int v = Raised e ->
  seed_time_left srv (pre ++ (h, v) :: post) cur = Raised e.
Proof.
  intros Hnow Hint Hpre Ht Hv. revert cur.
  induction Hpre as [|[h0 v0] r H0 Hr IH]; intros cur; cbn [app seed_time_left].
  - rewrite Ht, Hnow. cbn [bind]. rewrite Hint. cbn [bind]. rewrite Hv. reflexivity.
  - cbn [snd] in H0. destruct (truthy v0) eqn:Ht0; [|apply IH].
    destruct (H0 eq_refl) as (z & Hz).
    rewrite Hnow. cbn [bind]. rewrite Hint. cbn [bind]. rewrite Hz. cbn [bind]. apply IH.
Qed.

(** X11. A watched lock value that is a non-empty ASCII string but not
    a decimal integer (as [int()] reads one: white space around, a sign,
    digits with single underscores between them) makes [int(expire)]
    raise [ValueError] while the countdown is seeded.
    [show_timeout_wait_dialog] does not catch it: the exception, whose
    message shows the offending text, reaches the caller, no dialog is
    listed or shown and nothing is reported through [show_critical]. *)
Theorem unparsable_expiry_aborts_creation (srv : Server) (tx : Transaction)
  (wallet : Wallet) (self : nat) (reg : list nat) (sc : Scan)
  (pre post : list (string * pyval)) (h text : string) (nowv : pyval) (now : Z) :
  deserialize tx = Ok tt ->
  wallet_type wallet = Multisig_Wallet ->
  scan_keystores srv (keystores wallet) scan_init = Ok sc ->
  sc_locks sc = (pre ++ (h, VStr text) :: post)%list ->
  Forall (fun item => truthy (snd item) = true -> exists z, py_int (snd item) = Ok z) pre ->
  is_ascii text = true ->
  text <> EmptyString ->
  int_of_string text = None ->
  get_current_time srv = Ok nowv ->
  py_int nowv = Ok now ->
  show_timeout_wait_dialog srv tx wallet self reg
  = mk_show reg None (Raised (invalid_literal text)) /\
  exn_cls (invalid_literal text) = ValueError.
Proof.
  intros Hd Hw Hsc Hlocks Hpre _ Hne Hparse Hnow Hint.
  split; [|reflexivity].
  assert (Ht : truthy (VStr text) = true).
  { cbn [truthy]. destruct (String.eqb_spec text EmptyString); [contradiction|reflexivity]. }
  assert (Hv : py_int (VStr text) = Raised (invalid_literal text))
    by (cbn [py_int]; rewrite Hparse; reflexivity).
  assert (Hinit : init_fields srv tx wallet self = Raised (invalid_literal text)).
  { unfold init_fields. rewrite Hd, Hw, Hsc. cbn [bind]. rewrite Hlocks.
    rewrite (seed_time_left_unparsable srv pre h (VStr text) post DURATION_INT
               (invalid_literal text) nowv now Hnow Hint Hpre Ht Hv).
    reflexivity. }
  unfold show_timeout_wait_dialog, init. rewrite Hinit. reflexivity.
Qed.

Lemma unparsable_expiry_aborts_creation_witness :
  show_timeout_wait_dialog (store_with (VStr "locked") VNone 1500) tx_ok wallet_2of2 7 [3%nat]
  = mk_show [3%nat] None
      (Raised (mk_exn ValueError "invalid literal for int() with base 10: 'locked'")).
Proof.
  apply (unparsable_expiry_aborts_creation
           (store_with (VStr "locked") VNone 1500) tx_ok wallet_2of2 7 [3%nat]
           (mk_scan ["h0"] ["h1"] [("h1", VStr "locked")] VNone)
           [] [] "h1" "locked" (VInt 1500) 1500);
    try reflexivity.
  - constructor.
  - discriminate.
Defined.

(** [int()] does not strip the separator characters 28 to 31 from an
    ASCII string, and shows them escaped in its message. *)
Example py_int_separator :
  py_int (VStr (String (ascii_of_nat 28) "1000"))
  = Raised (mk_exn ValueError "invalid literal for int() with base 10: '\x1c1000'").
Proof. reflexivity. Qed.

Lemma scan_keystores_app srv pre rest acc :
  scan_keystores srv (pre ++ rest) acc
  = bind (scan_keystores srv pre acc) (scan_keystores srv rest).
Proof.
  revert acc. induction pre as [|[key k] r IH]; intros acc; [reflexivity|].
  cbn [app scan_keystores].
  destruct (ks_hash k) as [h|e]; cbn [bind]; [|reflexivity].
  destruct (is_watching_only k); cbn [negb].
  - destruct (get srv (h ++ "_lock")) as [lock|e]; cbn [bind]; [|reflexivity].
    destruct (truthy lock); [|apply IH].
    destruct (get srv (h ++ "_name")) as [name|e]; cbn [bind]; [|reflexivity].
    apply IH.
  - apply IH.
Qed.

(** X12. When the fingerprint of some keystore of a multisig wallet
    cannot be derived (the keystores before it scanned without failure),
    the constructor raises that failure; unless it is a
    [SerializationError], [show_timeout_wait_dialog] lets it through: no
    dialog is listed or shown and nothing is reported. *)
Theorem key_failure_aborts_creation (srv : Server) (tx : Transaction) (wallet : Wallet)
  (self : nat) (reg : list nat) (pre post : list (string * Keystore))
  (key : string) (k : Keystore) (acc : Scan) (e : exn) :
  deserialize tx = Ok tt ->
  wallet_type wallet = Multisig_Wallet ->
  keystores wallet = (pre ++ (key, k) :: post)%list ->
  scan_keystores srv pre scan_init = Ok acc ->
  ks_hash k = Raised e ->
  is_SerializationError e = false ->
  init srv tx wallet self reg = (reg, Raised e) /\
  show_timeout_wait_dialog srv tx wallet self reg = mk_show reg None (Raised e).
Proof.
  intros Hd Hw Hks Hpre Hk Hcls.
  assert (Hinit : init srv tx wallet self reg = (reg, Raised e)).
  { unfold init, init_fields. rewrite Hd, Hw, Hks, scan_keystores_app, Hpre.
    cbn [bind scan_keystores]. rewrite Hk. reflexivity. }
  split; [exact Hinit|].
  unfold show_timeout_wait_dialog. rewrite Hinit, Hcls. reflexivity.
Qed.

Lemma key_failure_aborts_creation_witness :
  show_timeout_wait_dialog (store_with (VStr "1000") VNone 1500) tx_ok
    (mk_wallet Multisig_Wallet
       [("x1/", mk_keystore (Ok "h0") false);
        ("x2/", mk_keystore (Raised (mk_exn KeyDerivationError "invalid xpub")) true)])
    7 [3%nat]
  = mk_show [3%nat] None (Raised (mk_exn KeyDerivationError "invalid xpub")).
Proof.
  apply (key_failure_aborts_creation (store_with (VStr "1000") VNone 1500) tx_ok
           (mk_wallet Multisig_Wallet
              [("x1/", mk_keystore (Ok "h0") false);
               ("x2/", mk_keystore (Raised (mk_exn KeyDerivationError "invalid xpub")) true)])
           7 [3%nat] [("x1/", mk_keystore (Ok "h0") false)] [] "x2/"
           (mk_keystore (Raised (mk_exn KeyDerivationError "invalid xpub")) true)
           (mk_scan ["h0"] [] [] VNone)
           (mk_exn KeyDerivationError "invalid xpub"));
    reflexivity.
Defined.

(** X13. When the lock key of a watch-only keystore cannot be read while
    the constructor scans the keystores (those before it scanned without
    failure), the constructor raises that failure; unless it is a
    [SerializationError], [show_timeout_wait_dialog] lets it through and
    no session is created. *)
Theorem store_failure_aborts_creation (srv : Server) (tx : Transaction) (wallet : Wallet)
  (self : nat) (reg : list nat) (pre post : list (string * Keystore))
  (key h : string) (k : Keystore) (acc : Scan) (e : exn) :
  deserialize tx = Ok tt ->
  wallet_type wallet = Multisig_Wallet ->
  keystores wallet = (pre ++ (key, k) :: post)%list ->
  scan_keystores srv pre scan_init = Ok acc ->
  ks_hash k = Ok h ->
  is_watching_only k = true ->
  get srv (h ++ "_lock") = Raised e ->
  is_SerializationError e = false ->
  show_timeout_wait_dialog srv tx wallet self reg = mk_show reg None (Raised e) /\
  session_of (show_timeout_wait_dialog srv tx wallet self reg) = None.
Proof.
  intros Hd Hw Hks Hpre Hk Hwo Hg Hcls.
  assert (Hinit : init srv tx wallet self reg = (reg, Raised e)).
  { unfold init, init_fields. rewrite Hd, Hw, Hks, scan_keystores_app, Hpre.
    cbn [bind scan_keystores]. rewrite Hk. cbn [bind]. rewrite Hwo. cbn [negb].
    rewrite Hg. reflexivity. }
  assert (Hshow : show_timeout_wait_dialog srv tx wallet self reg
                  = mk_show reg None (Raised e)).
  { unfold show_timeout_wait_dialog. rewrite Hinit, Hcls. reflexivity. }
  split; [exact Hshow|]. rewrite Hshow. reflexivity.
Qed.

Lemma store_failure_aborts_creation_witness :
  show_timeout_wait_dialog unavailable_store tx_ok wallet_2of2 7 [3%nat]
  = mk_show [3%nat] None (Raised unavailable).
Proof.
  apply (store_failure_aborts_creation unavailable_store tx_ok wallet_2of2 7 [3%nat]
           [("x1/", mk_keystore (Ok "h0") false)] [] "x2/" "h1"
           (mk_keystore (Ok "h1") true) (mk_scan ["h0"] [] [] VNone) unavailable);
    reflexivity.
Defined.

(** ** The two sets of fingerprints *)

(** X14. After a successful construction for a multisig wallet, the
    watched set [cosigner_list] holds exactly the fingerprints of the
    watch-only keystores and [keyhashes] exactly those of the wallet's own
    keystores, each fingerprint once. *)
Theorem fingerprint_sets_follow_keystores (srv : Server) (tx : Transaction)
  (wallet : Wallet) (self : nat) (d0 : TimeoutWaitDialog) :
  init_fields srv tx wallet self = Ok d0 ->
  wallet_type wallet = Multisig_Wallet ->
  (forall h, In h (cosigner_list d0) <-> has_keystore (keystores wallet) h true) /\
  (forall h, In h (keyhashes d0) <-> has_keystore (keystores wallet) h false) /\
  NoDup (cosigner_list d0) /\ NoDup (keyhashes d0).
Proof.
  unfold init_fields. intros Hinit Hw. rewrite Hw in Hinit.
  destruct (deserialize tx) as [u|e]; [|discriminate].
  destruct (scan_keystores srv (keystores wallet) scan_init) as [sc|e] eqn:Hsc;
    simpl in Hinit; [|discriminate].
  destruct (seed_time_left srv (sc_locks sc) DURATION_INT) as [t|e]; simpl in Hinit;
    [|discriminate].
  injection Hinit as <-. cbn [cosigner_list keyhashes].
  destruct (scan_keystores_sets _ _ _ _ Hsc) as (A & B & C & D).
  split; [|split; [|split]].
  - intros h. rewrite A. cbn. intuition.
  - intros h. rewrite B. cbn. intuition.
  - apply C. constructor.
  - apply D. constructor.
Qed.

Lemma fingerprint_sets_follow_keystores_witness :
  In "h2" (cosigner_list
             (mk_dialog 7 [("h1", VStr "1000"); ("h2", VStr "1200")] VNone false
                        ["h0"] ["h1"; "h2"] 300 false false)) /\
  has_keystore (keystores wallet_2of3) "h2" true.
Proof.
  split; [simpl; auto|].
  apply (proj1 (fingerprint_sets_follow_keystores (store_two_locks 1500) tx_ok wallet_2of3 7
                  (mk_dialog 7 [("h1", VStr "1000"); ("h2", VStr "1200")] VNone false
                             ["h0"] ["h1"; "h2"] 300 false false)
                  eq_refl eq_refl) "h2").
  simpl. auto.
Defined.

(** ** The countdown label *)

Lemma format_02d_table :
  forallb (fun n => (format_02d (Z.of_nat n) =? two_digits (Z.of_nat n))%string)
          (seq 0 100) = true.
Proof. vm_compute. reflexivity. Qed.

Lemma format_02d_small n :
  (0 <= n < 100)%Z -> format_02d n = two_digits n.
Proof.
  intros Hn.
  pose proof (proj1 (forallb_forall _ _) format_02d_table (Z.to_nat n)) as H.
  cbv beta in H. rewrite Z2Nat.id in H by lia.
  apply String.eqb_eq. apply H. apply in_seq. lia.
Qed.

(** X15. For a countdown from 0 up to 5999 seconds, which covers every
    value between the fixed duration and 0, the label reads
    [Time left: MM:SS] with two digits for the minutes [t / 60] and two
    for the seconds [t mod 60]; it is 16 characters long. *)
Theorem time_label_minutes_seconds (t : Z) :
  (0 <= t < 6000)%Z ->
  time_label t = "Time left: " ++ two_digits (t / 60) ++ ":" ++ two_digits (t mod 60) /\
  String.length (time_label t) = 16%nat.
Proof.
  intros Ht. unfold time_label. cbv zeta.
  assert (Hm : (0 <= t / 60 < 100)%Z).
  { split; [apply Z.div_pos; lia | apply Z.div_lt_upper_bound; lia]. }
  assert (Hs : (0 <= t mod 60 < 100)%Z).
  { pose proof (Z.mod_pos_bound t 60 ltac:(lia)). lia. }
  rewrite (format_02d_small _ Hm), (format_02d_small _ Hs).
  split; reflexivity.
Qed.

Lemma time_label_minutes_seconds_witness :
  time_label 100 = "Time left: 01:40".
Proof.
  rewrite (proj1 (time_label_minutes_seconds 100 ltac:(lia))). reflexivity.
Defined.

Lemma string_of_uint_nonempty d :
  d <> Decimal.Nil -> starts_with_digit (DecimalString.NilEmpty.string_of_uint d).
Proof.
  destruct d; intros H; try contradiction; simpl; discriminate.
Qed.

Lemma to_uint_nonnil n : N.to_uint n <> Decimal.Nil.
Proof.
  destruct n as [|p]; [discriminate|]. apply DecimalPos.Unsigned.to_uint_nonnil.
Qed.

Lemma decimal_starts_with_digit n : starts_with_digit (decimal n).
Proof. apply string_of_uint_nonempty. apply to_uint_nonnil. Qed.

Lemma zfill_one_decimal n : zfill 1 (decimal n) = decimal n.
Proof.
  unfold zfill. pose proof (decimal_starts_with_digit n) as H.
  destruct (decimal n) as [|c r]; [contradiction|]. reflexivity.
Qed.

(** X16. Below zero the label follows the floor division of [divmod]:
    the minutes field is the minus sign followed by the digits of
    [-(t / 60)], which is at least 1, and the seconds field is
    [t mod 60], between 00 and 59.  One second below zero is shown as
    [-1:59]. *)
Theorem time_label_below_zero (t : Z) :
  (t < 0)%Z ->
  time_label t
  = "Time left: -" ++ decimal (Z.to_N (- (t / 60))) ++ ":" ++ two_digits (t mod 60) /\
  (1 <= - (t / 60))%Z /\ (0 <= t mod 60 < 60)%Z.
Proof.
  intros Ht. unfold time_label. cbv zeta.
  assert (Hm : (t / 60 < 0)%Z) by (apply Z.div_lt_upper_bound; lia).
  pose proof (Z.mod_pos_bound t 60 ltac:(lia)) as Hs.
  split; [|split; lia].
  rewrite (format_02d_small (t mod 60)) by lia.
  unfold format_02d at 1.
  destruct (Z.ltb_spec (t / 60) 0) as [_|Hge]; [|lia].
  rewrite zfill_one_decimal. reflexivity.
Qed.

Lemma time_label_below_zero_witness :
  time_label (-1) = "Time left: -1:59".
Proof.
  rewrite (proj1 (time_label_below_zero (-1) ltac:(lia))). reflexivity.
Defined.

(** ** What [format] prints, [int] reads back *)

Lemma digits_value_uint d acc b :
  d <> Decimal.Nil \/ b = true ->
  digits_value (DecimalString.NilEmpty.string_of_uint d) acc b = Some (uint_value d acc).
Proof.
  revert acc b.
  induction d as [|d IH|d IH|d IH|d IH|d IH|d IH|d IH|d IH|d IH|d IH]; intros acc b Hb;
    try (cbn [DecimalString.NilEmpty.string_of_uint digits_value uint_value];
         change (digit_of _) with (Some 0%Z) || change (digit_of _) with (Some 1%Z)
         || change (digit_of _) with (Some 2%Z) || change (digit_of _) with (Some 3%Z)
         || change (digit_of _) with (Some 4%Z) || change (digit_of _) with (Some 5%Z)
         || change (digit_of _) with (Some 6%Z) || change (digit_of _) with (Some 7%Z)
         || change (digit_of _) with (Some 8%Z) || change (digit_of _) with (Some 9%Z);
         cbv iota beta; rewrite ?Z.add_0_r; apply IH; right; reflexivity).
  destruct Hb as [H | ->]; [contradiction|]. reflexivity.
Qed.

Lemma uint_value_pos d p :
  uint_value d (Z.pos p) = Z.pos (Pos.of_uint_acc d p).
Proof.
  revert p. induction d as [|d IH|d IH|d IH|d IH|d IH|d IH|d IH|d IH|d IH|d IH]; intros p;
    cbn [uint_value Pos.of_uint_acc]; [reflexivity|..];
    rewrite <- IH; f_equal; lia.
Qed.

Lemma uint_value_zero d : uint_value d 0 = Z.of_N (Pos.of_uint d).
Proof.
  induction d as [|d IH|d IH|d IH|d IH|d IH|d IH|d IH|d IH|d IH|d IH];
    cbn [uint_value Pos.of_uint]; [reflexivity|exact IH|..];
    cbn [Z.mul Z.add Z.of_N]; apply uint_value_pos.
Qed.

Lemma digits_value_decimal n b :
  digits_value (decimal n) 0 b = Some (Z.of_N n).
Proof.
  unfold decimal. rewrite digits_value_uint by (left; apply to_uint_nonnil).
  rewrite uint_value_zero. f_equal. f_equal.
  exact (DecimalN.Unsigned.of_to n).
Qed.

Lemma digits_value_zero_pad k n b :
  digits_value (zero_pad k (decimal n)) 0 b = Some (Z.of_N n).
Proof.
  revert b. induction k as [|k IH]; intros b; cbn [zero_pad].
  - apply digits_value_decimal.
  - cbn [digits_value]. change (digit_of "0") with (Some 0%Z). cbv iota beta.
    change (10 * 0 + 0)%Z with 0%Z. apply IH.
Qed.

Lemma rev_string_involutive s : rev_string (rev_string s) = s.
Proof.
  unfold rev_string.
  rewrite list_ascii_of_string_of_list_ascii, rev_involutive.
  apply string_of_list_ascii_of_string.
Qed.

Lemma lstrip_plain s : plain s -> lstrip s = s.
Proof.
  unfold plain. destruct s as [|c r]; [reflexivity|]. simpl.
  destruct (is_space c); [discriminate|reflexivity].
Qed.

Lemma rev_string_plain s : plain s -> plain (rev_string s).
Proof.
  unfold plain, rev_string. rewrite list_ascii_of_string_of_list_ascii.
  intros H. apply forallb_forall. intros c Hin. apply in_rev in Hin.
  exact (proj1 (forallb_forall _ _) H c Hin).
Qed.

Lemma strip_plain s : plain s -> strip s = s.
Proof.
  intros H. unfold strip. rewrite (lstrip_plain s H).
  rewrite (lstrip_plain _ (rev_string_plain s H)). apply rev_string_involutive.
Qed.

Lemma string_of_uint_plain d : plain (DecimalString.NilEmpty.string_of_uint d).
Proof.
  unfold plain. induction d; simpl; try exact IHd. reflexivity.
Qed.

Lemma zero_pad_plain k s : plain s -> plain (zero_pad k s).
Proof. intros H. induction k as [|k IH]; [exact H|exact IH]. Qed.

Lemma zero_pad_starts_with_digit k s :
  starts_with_digit s -> starts_with_digit (zero_pad k s).
Proof. intros H. destruct k as [|k]; [exact H|]. simpl. discriminate. Qed.

(** A string that begins with a digit carries no sign. *)
Lemma int_of_string_unsigned s :
  plain s -> starts_with_digit s -> int_of_string s = digits_value s 0 false.
Proof.
  intros Hp Hd. unfold int_of_string. rewrite (strip_plain s Hp).
  destruct s as [|c r]; [contradiction|]. simpl in Hd.
  destruct c as [[] [] [] [] [] [] [] []]; try reflexivity; exfalso; apply Hd; reflexivity.
Qed.

(** X17. What ['{:02d}'.format] prints for an integer, zero padding and
    minus sign included, [int] reads back as that integer.  With
    [60 * (t / 60) + t mod 60 = t], the two fields of the countdown label
    determine the countdown. *)
Theorem format_02d_reads_back (z : Z) :
  int_of_string (format_02d z) = Some z /\
  py_int (VStr (format_02d z)) = Ok z.
Proof.
  assert (H : int_of_string (format_02d z) = Some z).
  { unfold format_02d. destruct (Z.ltb_spec z 0) as [Hneg|Hpos].
    - rewrite zfill_one_decimal. unfold int_of_string.
      rewrite strip_plain by exact (string_of_uint_plain (N.to_uint (Z.to_N (- z)))).
      cbv iota beta.
      change (match String "-" (decimal (Z.to_N (- z))) with
              | String "-" r => option_map Z.opp (digits_value r 0 false)
              | String "+" r => digits_value r 0 false
              | r => digits_value r 0 false
              end)
        with (option_map Z.opp (digits_value (decimal (Z.to_N (- z))) 0 false)).
      rewrite digits_value_decimal. cbn [option_map]. f_equal. lia.
    - unfold zfill. rewrite int_of_string_unsigned.
      + rewrite digits_value_zero_pad. f_equal. lia.
      + apply zero_pad_plain. apply string_of_uint_plain.
      + apply zero_pad_starts_with_digit. apply decimal_starts_with_digit. }
  split; [exact H|]. cbn [py_int]. rewrite H. reflexivity.
Qed.

(** ** What [show_timeout_wait_dialog] leaves in [dialogs] *)

Lemma init_registry srv tx wallet self reg :
  ~ In self reg -> fst (init srv tx wallet self reg) = reg.
Proof.
  intros Hfresh. unfold init.
  destruct (init_fields srv tx wallet self) as [d0|e] eqn:Hinit; [|reflexivity].
  destruct (init_fields_fresh _ _ _ _ _ Hinit) as (Hid & _ & Hvis).
  unfold timer_start. cbn [dlg dialogs].
  set (s0 := mk_session (set_my_qtimer true d0) reg).
  assert (Hl0 : listed s0 = false)
    by (unfold listed; cbn; rewrite Hid; apply existsb_not_in; exact Hfresh).
  assert (Hv0 : visible (dlg s0) = false) by exact Hvis.
  destruct (update_before_show srv s0 Hv0 Hl0) as (Hv1 & Hl1 & Hr1).
  destruct (update_before_show srv _ Hv1 Hl1) as (Hv2 & Hl2 & Hr2).
  assert (Hr0 : dialogs s0 = reg) by reflexivity.
  pose proof (update_with_labels_fst srv s0) as F1.
  destruct (update_with_labels srv s0) as [s1 [u1|e1]] eqn:E1; cbn [fst] in F1; subst s1.
  - pose proof (update_with_labels_fst srv (fst (update srv s0))) as F2.
    destruct (update_with_labels srv (fst (update srv s0))) as [s2 [u2|e2]] eqn:E2;
      cbn [fst] in F2 |- *; subst s2; congruence.
  - cbn [fst]. congruence.
Qed.

(** X18. [show_timeout_wait_dialog], called for a new object, lists a
    dialog only when it returns one: on success the dialog returned is on
    screen, its timer running, not timed out, and is appended at the end
    of [dialogs] with nothing reported; in every other case (a reported
    deserialization failure, or an exception that escapes) [dialogs] is
    left exactly as it was. *)
Theorem show_lists_only_what_it_returns (srv : Server) (tx : Transaction)
  (wallet : Wallet) (self : nat) (reg : list nat) :
  ~ In self reg ->
  (forall d, sr_return (show_timeout_wait_dialog srv tx wallet self reg) = Ok (Some d) ->
     sr_dialogs (show_timeout_wait_dialog srv tx wallet self reg) = (reg ++ [self])%list /\
     sr_critical (show_timeout_wait_dialog srv tx wallet self reg) = None /\
     self_id d = self /\ visible d = true /\ my_qtimer d = true /\ timed_out d = false) /\
  ((forall d, sr_return (show_timeout_wait_dialog srv tx wallet self reg) <> Ok (Some d)) ->
     sr_dialogs (show_timeout_wait_dialog srv tx wallet self reg) = reg).
Proof.
  intros Hfresh. split.
  - intros d Hret.
    assert (Hs : session_of (show_timeout_wait_dialog srv tx wallet self reg)
                 = Some (mk_session d (sr_dialogs (show_timeout_wait_dialog srv tx wallet self reg))))
      by (unfold session_of; rewrite Hret; reflexivity).
    destruct (show_session_fields _ _ _ _ _ _ Hfresh Hs) as (Hid & Hreg & Hv & Ht & Hq).
    cbn [dlg dialogs] in *.
    split; [exact Hreg|]. split; [|auto].
    revert Hret. unfold show_timeout_wait_dialog.
    destruct (init srv tx wallet self reg) as [reg1 [d1|e]]; [reflexivity|].
    destruct (is_SerializationError e); cbn; discriminate.
  - intros Hnone. pose proof (init_registry srv tx wallet self reg Hfresh) as Hreg.
    revert Hnone. unfold show_timeout_wait_dialog.
    destruct (init srv tx wallet self reg) as [reg1 [d1|e]]; cbn [fst] in Hreg.
    + cbn. intros Hnone. exfalso. apply (Hnone (show d1)). reflexivity.
    + intros _. destruct (is_SerializationError e); exact Hreg.
Qed.

Lemma show_lists_only_what_it_returns_witness :
  sr_dialogs (show_timeout_wait_dialog unavailable_store tx_ok wallet_2of2 7 [3%nat; 5%nat])
  = [3%nat; 5%nat].
Proof.
  apply (proj2 (show_lists_only_what_it_returns unavailable_store tx_ok wallet_2of2 7
                  [3%nat; 5%nat]
                  ltac:(simpl; intros [H|[H|[]]]; discriminate H))).
  intros d. discriminate.
Defined.

(** ** The lock is released *)

Lemma off_cadence_run srvs s :
  (forall j, (1 <= j <= Z.of_nat (List.length srvs))%Z ->
             ((time_left_int (dlg s) - j) mod 10 <> 0)%Z) ->
  run_ticks srvs s
  = mk_session (set_time_left_int (time_left_int (dlg s) - Z.of_nat (List.length srvs)) (dlg s))
               (dialogs s).
Proof.
  revert s. induction srvs as [|srv r IH]; intros s Hoff.
  - cbn [run_ticks List.length Z.of_nat]. rewrite Z.sub_0_r.
    destruct s as [d reg]. destruct d. reflexivity.
  - cbn [run_ticks].
    assert (H1 : ((time_left_int (dlg s) - 1) mod 10 <> 0)%Z)
      by (apply Hoff; cbn [List.length]; lia).
    assert (Hne : time_left_int (dlg s) <> 1%Z)
      by (intros E; apply H1; rewrite E; reflexivity).
    rewrite (timer_timeout_not_zero srv s Hne).
    rewrite (update_off_cadence srv
               (mk_session (set_time_left_int (time_left_int (dlg s) - 1) (dlg s)) (dialogs s))
               H1).
    cbn [fst]. rewrite IH.
    + cbn [dlg dialogs].
      change (time_left_int (set_time_left_int (time_left_int (dlg s) - 1) (dlg s)))
        with (time_left_int (dlg s) - 1)%Z.
      replace (time_left_int (dlg s) - 1 - Z.of_nat (List.length r))%Z
        with (time_left_int (dlg s) - Z.of_nat (List.length (srv :: r)))%Z
        by (cbn [List.length]; lia).
      reflexivity.
    + intros j Hj. cbn [dlg].
      change (time_left_int (set_time_left_int (time_left_int (dlg s) - 1) (dlg s)))
        with (time_left_int (dlg s) - 1)%Z.
      replace (time_left_int (dlg s) - 1 - j)%Z with (time_left_int (dlg s) - (j + 1))%Z by lia.
      apply Hoff. cbn [List.length]. lia.
Qed.

(** X19. Once no watched fingerprint holds a lock any more, an active
    session with more than 10 seconds left ends as Completed at the first
    tick that lands on a multiple of 10, that is after
    [(t - 1) mod 10 + 1] ticks, 10 at most: the ticks before it do not
    look at the store and leave the session Active, and that tick forces
    the countdown to 0 and closes the dialog. *)
Theorem released_lock_completes_at_next_poll (front : list Server) (srv : Server)
  (s : Session) :
  wf s ->
  state_of s = Active ->
  (10 < time_left_int (dlg s))%Z ->
  Z.of_nat (List.length front) = ((time_left_int (dlg s) - 1) mod 10)%Z ->
  lock_free srv (cosigner_list (dlg s)) ->
  state_of (run_ticks front s) = Active /\
  time_left_int (dlg (run_ticks (front ++ [srv]) s)) = 0%Z /\
  state_of (run_ticks (front ++ [srv]) s) = Completed.
Proof.
  intros Hwf Ha Ht Hlen Hfree.
  destruct (active_fields s Hwf Ha) as [Hv Hto].
  assert (Hoff : forall j, (1 <= j <= Z.of_nat (List.length front))%Z ->
                           ((time_left_int (dlg s) - j) mod 10 <> 0)%Z).
  { intros j Hj. rewrite Hlen in Hj. revert Hj. generalize (time_left_int (dlg s)).
    intros t Hj. Z.to_euclidean_division_equations. lia. }
  pose proof (off_cadence_run front s Hoff) as Hrun.
  set (s1 := mk_session
               (set_time_left_int (time_left_int (dlg s) - Z.of_nat (List.length front)) (dlg s))
               (dialogs s)) in *.
  assert (Hwf1 : wf s1).
  { destruct Hwf as (Hc & Hl & Hto'). split; [exact Hc|]. split; [exact Hl|exact Hto']. }
  assert (Ha1 : state_of s1 = Active).
  { unfold state_of. cbn [dlg s1].
    change (visible (set_time_left_int _ (dlg s))) with (visible (dlg s)).
    rewrite Hv. reflexivity. }
  split; [rewrite Hrun; exact Ha1|].
  assert (Happ : run_ticks (front ++ [srv]) s = fst (timer_timeout srv s1)).
  { rewrite <- Hrun. clear. revert s.
    induction front as [|x l IH]; intros s; [reflexivity|]. cbn [app run_ticks]. apply IH. }
  rewrite Happ.
  apply (timer_timeout_no_lock_completes srv s1 Hwf1 Ha1).
  - cbn [dlg s1].
    change (time_left_int (set_time_left_int _ (dlg s)))
      with (time_left_int (dlg s) - Z.of_nat (List.length front))%Z.
    rewrite Hlen. generalize (time_left_int (dlg s)). intros t.
    Z.to_euclidean_division_equations. lia.
  - cbn [dlg s1].
    change (time_left_int (set_time_left_int _ (dlg s)))
      with (time_left_int (dlg s) - Z.of_nat (List.length front))%Z.
    rewrite Hlen. revert Ht. generalize (time_left_int (dlg s)). intros t Ht.
    Z.to_euclidean_division_equations. lia.
  - exact Hfree.
Qed.

Lemma released_lock_completes_at_next_poll_witness :
  state_of (run_ticks (repeat unavailable_store 4 ++ [store_with VNone VNone 1600])
                      (watching 95)) = Completed.
Proof.
  apply (released_lock_completes_at_next_poll (repeat unavailable_store 4)
           (store_with VNone VNone 1600) (watching 95)).
  - unfold wf. simpl. repeat split; [lia | discriminate].
  - reflexivity.
  - simpl. lia.
  - reflexivity.
  - intros h [<-|[]]. exists VNone. split; reflexivity.
Defined.

(** ** The last ten seconds *)

(** X20. An active session with 1 to 10 seconds left is past its last
    poll: none of the remaining ticks lands on a multiple of 10 before 0,
    so whatever the store holds from then on (the lock released, reads
    failing), the session counts down and ends as TimedOut at the tick
    that reaches 0, never as Completed. *)
Theorem last_ten_seconds_end_timed_out (srvs : list Server) (s : Session) :
  wf s ->
  state_of s = Active ->
  (1 <= time_left_int (dlg s) <= 10)%Z ->
  Z.of_nat (List.length srvs) = time_left_int (dlg s) ->
  time_left_int (dlg (run_ticks srvs s)) = 0%Z /\
  state_of (run_ticks srvs s) = TimedOut.
Proof.
  intros Hwf Ha Ht Hlen.
  destruct (active_fields s Hwf Ha) as [Hv Hto].
  destruct (exists_last (l := srvs)) as (front & srv & ->).
  { intros ->. cbn in Hlen. lia. }
  rewrite length_app in Hlen. cbn [List.length] in Hlen.
  assert (Hoff : forall j, (1 <= j <= Z.of_nat (List.length front))%Z ->
                           ((time_left_int (dlg s) - j) mod 10 <> 0)%Z).
  { intros j Hj. revert Ht Hlen Hj. generalize (time_left_int (dlg s)).
    intros t Ht Hlen Hj. Z.to_euclidean_division_equations. lia. }
  assert (Happ : run_ticks (front ++ [srv]) s
                 = fst (timer_timeout srv (run_ticks front s))).
  { clear. revert s. induction front as [|x l IH]; intros s; [reflexivity|].
    cbn [app run_ticks]. apply IH. }
  rewrite Happ, (off_cadence_run front s Hoff).
  apply last_tick.
  - destruct Hwf as (Hc & Hl & Hto'). split; [exact Hc|]. split; [exact Hl|exact Hto'].
  - exact Hv.
  - cbn [dlg].
    change (time_left_int (set_time_left_int _ (dlg s)))
      with (time_left_int (dlg s) - Z.of_nat (List.length front))%Z.
    lia.
Qed.

Lemma last_ten_seconds_end_timed_out_witness :
  state_of (run_ticks [store_with VNone VNone 1600; unavailable_store;
                       store_with VNone VNone 1602] (watching 3)) = TimedOut.
Proof.
  apply (last_ten_seconds_end_timed_out
           [store_with VNone VNone 1600; unavailable_store; store_with VNone VNone 1602]
           (watching 3)).
  - unfold wf. simpl. repeat split; [lia | discriminate].
  - reflexivity.
  - simpl. lia.
  - reflexivity.
Defined.

(** ** The description label *)

Lemma last_forall {A : Type} (P : A -> Prop) (xs : list A) (d : A) :
  Forall P xs -> P d -> P (last xs d).
Proof.
  intros H. revert d. induction H as [|x xs Hx Hxs IH]; intros d Hd; [exact Hd|].
  rewrite last_cons. apply IH. exact Hx.
Qed.

Lemma last_truthy (xs : list pyval) (d : pyval) :
  Forall (fun v => truthy v = true) xs -> last xs d = d \/ truthy (last xs d) = true.
Proof.
  intros H. destruct H as [|x xs Hx Hxs]; [left; reflexivity|].
  right. rewrite last_cons. apply (last_forall (fun v => truthy v = true)); assumption.
Qed.

Lemma signer_name_truthy srv k : Forall (fun v => truthy v = true) (signer_name srv k).
Proof.
  unfold signer_name.
  destruct (ks_hash k) as [h|e]; [|constructor].
  destruct (is_watching_only k); [|constructor].
  destruct (get srv (h ++ "_lock")) as [lock|e]; [|constructor].
  destruct (truthy lock); [|constructor].
  destruct (get srv (h ++ "_name")) as [name|e]; [|constructor].
  destruct (truthy name) eqn:Hn; constructor; [exact Hn|constructor].
Qed.

(** The name kept at creation is [None] or a truthy value. *)
Lemma name_at_creation_truthy srv wallet :
  name_at_creation srv wallet = VNone \/ truthy (name_at_creation srv wallet) = true.
Proof.
  unfold name_at_creation. destruct (wallet_type wallet); [|left; reflexivity].
  apply last_truthy. induction (keystores wallet) as [|[key k] r IH]; [constructor|].
  cbn [flat_map snd]. apply Forall_app. split; [apply signer_name_truthy|exact IH].
Qed.

Lemma session_name srv tx wallet self reg s :
  session_of (show_timeout_wait_dialog srv tx wallet self reg) = Some s ->
  currently_signing (dlg s) = name_at_creation srv wallet.
Proof.
  unfold show_timeout_wait_dialog, session_of.
  destruct (init srv tx wallet self reg) as [reg1 [d|e]] eqn:Hinit.
  - cbn. intros H. injection H as <-. cbn.
    destruct (init_ok _ _ _ _ _ _ _ Hinit) as (d0 & Hf & Hd & _).
    rewrite <- (init_fields_name _ _ _ _ _ Hf), Hd.
    pose proof (same_identity_trans _ _ _
                  (update_same_identity srv (mk_session (set_my_qtimer true d0) reg))
                  (update_same_identity srv
                     (fst (update srv (mk_session (set_my_qtimer true d0) reg)))))
      as (_ & _ & Hname & _).
    exact Hname.
  - destruct (is_SerializationError e); cbn; discriminate.
Qed.

(** The label refresh of the constructor ended normally in every session
    handed out. *)
Lemma session_labels srv tx wallet self reg s :
  session_of (show_timeout_wait_dialog srv tx wallet self reg) = Some s ->
  refresh_labels (dlg s) = Ok tt.
Proof.
  unfold show_timeout_wait_dialog, session_of.
  destruct (init srv tx wallet self reg) as [reg1 [d|e]] eqn:Hinit.
  - cbn. intros H. injection H as <-. cbn [dlg].
    destruct (init_ok _ _ _ _ _ _ _ Hinit) as (d0 & _ & _ & _ & Hlab).
    rewrite <- Hlab. apply refresh_labels_same_name. reflexivity.
  - destruct (is_SerializationError e); cbn; discriminate.
Qed.

(** In every session the code can produce the name is [None] or a
    string: the label refresh cannot fail on it. *)
Lemma reachable_labels s : reachable s -> refresh_labels (dlg s) = Ok tt.
Proof.
  induction 1 as [srv tx wallet self reg s Hfresh Hs | srv s _ IH | s _ IH].
  - apply (session_labels _ _ _ _ _ _ Hs).
  - rewrite <- IH. apply refresh_labels_same_name.
    destruct (timer_timeout_same_identity srv s) as (_ & _ & Hn & _). exact Hn.
  - rewrite <- IH. apply refresh_labels_same_name. rewrite close_dlg. reflexivity.
Qed.

(** So on such a session the timer slot with the label refresh is the
    timer slot. *)
Lemma reachable_timer_timeout srv s :
  reachable s -> timer_timeout_with_labels srv s = timer_timeout srv s.
Proof.
  intros Hr. unfold timer_timeout_with_labels.
  pose proof (reachable_labels _ (reach_tick srv s Hr)) as Hlab.
  destruct (timer_timeout srv s) as [s' [[]|e]]; cbn [fst] in Hlab; [|reflexivity].
  rewrite Hlab. reflexivity.
Qed.

(** X21. The description label is never hidden: [desc] is never [None],
    so the branch [if desc is None] of [update] is never taken.  The name
    found at creation of a session that was handed out is [None] or a
    non-empty string, and through all ticks and closings of the session
    the label text is [Currently Signing: ] followed by that string, or
    by [Information unavailable] when no name was found. *)
Theorem description_label_never_hidden (srv : Server) (tx : Transaction) (wallet : Wallet)
  (self : nat) (reg : list nat) (s : Session) (evs : list event) :
  session_of (show_timeout_wait_dialog srv tx wallet self reg) = Some s ->
  (name_at_creation srv wallet = VNone
   \/ exists name, name_at_creation srv wallet = VStr name /\ name <> EmptyString) /\
  tx_desc_text (dlg (run_events evs s))
  = Ok (Some ("Currently Signing: "
                ++ match name_at_creation srv wallet with
                   | VStr name => name
                   | _ => "Information unavailable"
                   end)) /\
  tx_desc_text (dlg (run_events evs s)) <> Ok None.
Proof.
  intros Hs.
  pose proof (session_name _ _ _ _ _ _ Hs) as Hn.
  pose proof (proj1 (refresh_labels_ok _) (session_labels _ _ _ _ _ _ Hs)) as Hlab.
  rewrite Hn in Hlab.
  assert (Hcases : name_at_creation srv wallet = VNone
                   \/ exists name, name_at_creation srv wallet = VStr name
                                   /\ name <> EmptyString).
  { destruct (name_at_creation_truthy srv wallet) as [E|E]; [left; exact E|].
    destruct (name_at_creation srv wallet) as [|name|z] eqn:En.
    - discriminate E.
    - right. exists name. split; [reflexivity|]. intros ->. discriminate E.
    - exfalso. cbn [truthy] in E. apply (Hlab z); [|reflexivity].
      intros ->. discriminate E. }
  split; [exact Hcases|].
  unfold tx_desc_text, desc. rewrite run_events_name, Hn.
  destruct Hcases as [E|(name & E & Hne)]; rewrite E; cbn [truthy].
  - split; [reflexivity|discriminate].
  - destruct (String.eqb_spec name EmptyString) as [->|_]; [contradiction|].
    cbn [negb]. split; [reflexivity|discriminate].
Qed.

Lemma description_label_never_hidden_witness :
  tx_desc_text (dlg (run_events [Tick (store_with VNone VNone 1501); Close]
                       (mk_session (mk_dialog 7 [("h1", VStr "1000")] (VStr "Alice") false
                                              ["h0"] ["h1"] 100 true true) [7%nat])))
  = Ok (Some "Currently Signing: Alice").
Proof.
  exact (proj1 (proj2 (description_label_never_hidden
                  (store_with (VStr "1000") (VStr "Alice") 1500) tx_ok wallet_2of2 7 []
                  (mk_session (mk_dialog 7 [("h1", VStr "1000")] (VStr "Alice") false
                                         ["h0"] ["h1"] 100 true true) [7%nat])
                  [Tick (store_with VNone VNone 1501); Close] eq_refl))).
Defined.

(** ** From creation to time-out *)

(** X22. A session created while some watched fingerprint holds a lock,
    with a seed [t] of at least 1, and ticked while a lock stays held,
    starts from that seed, is Active with [t - n] seconds left after
    [n < t] ticks, and becomes TimedOut exactly at tick [t]. *)
Theorem created_session_times_out_at_seed (srv : Server) (tx : Transaction)
  (wallet : Wallet) (self : nat) (reg : list nat) (d0 : TimeoutWaitDialog)
  (srvs : list Server) (s : Session) :
  ~ In self reg ->
  init_fields srv tx wallet self = Ok d0 ->
  poll_locks srv (cosigner_list d0) false = Ok true ->
  (forall srv', In srv' srvs -> poll_locks srv' (cosigner_list d0) false = Ok true) ->
  session_of (show_timeout_wait_dialog srv tx wallet self reg) = Some s ->
  time_left_int (dlg s) = time_left_int d0 /\
  ((Z.of_nat (List.length srvs) < time_left_int d0)%Z ->
   state_of (run_ticks srvs s) = Active /\
   time_left_int (dlg (run_ticks srvs s)) = (time_left_int d0 - Z.of_nat (List.length srvs))%Z) /\
  ((1 <= time_left_int d0)%Z -> Z.of_nat (List.length srvs) = time_left_int d0 ->
   state_of (run_ticks srvs s) = TimedOut /\
   time_left_int (dlg (run_ticks srvs s)) = 0%Z).
Proof.
  intros Hfresh Hinit Hheld0 Hheld Hs.
  destruct (show_session_wf _ _ _ _ _ _ Hfresh Hs) as (Hwf & Ha).
  destruct (active_fields s Hwf Ha) as [Hv Hto].
  assert (Hsd : dlg s = set_visible true (set_my_qtimer true d0)).
  { revert Hs. unfold show_timeout_wait_dialog, session_of.
    destruct (init srv tx wallet self reg) as [reg1 [d|e]] eqn:Hi.
    - cbn. intros H. injection H as <-. cbn [dlg].
      destruct (init_ok _ _ _ _ _ _ _ Hi) as (d0' & Hf & Hd & _).
      rewrite Hinit in Hf. injection Hf as <-.
      rewrite (update_idle srv (mk_session (set_my_qtimer true d0) reg) (or_intror Hheld0)) in Hd.
      cbn [fst] in Hd.
      rewrite (update_idle srv (mk_session (set_my_qtimer true d0) reg) (or_intror Hheld0)) in Hd.
      cbn [fst dlg] in Hd. rewrite Hd. reflexivity.
    - destruct (is_SerializationError e); cbn; discriminate. }
  assert (Ht : time_left_int (dlg s) = time_left_int d0) by (rewrite Hsd; reflexivity).
  assert (Hc : cosigner_list (dlg s) = cosigner_list d0) by (rewrite Hsd; reflexivity).
  assert (Hheld' : forall srv', In srv' srvs ->
                     poll_locks srv' (cosigner_list (dlg s)) false = Ok true)
    by (rewrite Hc; exact Hheld).
  split; [exact Ht|]. split.
  - intros Hlen. rewrite <- Ht in Hlen. rewrite (held_run srvs s Hheld' Hlen).
    split.
    + unfold state_of. cbn [dlg].
      change (visible (set_time_left_int _ (dlg s))) with (visible (dlg s)).
      rewrite Hv. reflexivity.
    + cbn [dlg]. rewrite <- Ht. reflexivity.
  - intros H1 Hlen. rewrite <- Ht in H1, Hlen.
    destruct (exists_last (l := srvs)) as (front & srv1 & ->).
    { intros ->. cbn in Hlen. lia. }
    rewrite length_app in Hlen. cbn [List.length] in Hlen.
    assert (Happ : run_ticks (front ++ [srv1]) s
                   = fst (timer_timeout srv1 (run_ticks front s))).
    { clear. revert s. induction front as [|x l IH]; intros s; [reflexivity|].
      cbn [app run_ticks]. apply IH. }
    rewrite Happ, (held_run front s).
    + destruct (last_tick srv1
                  (mk_session (set_time_left_int
                                 (time_left_int (dlg s) - Z.of_nat (List.length front)) (dlg s))
                              (dialogs s))) as (A & B).
      * destruct Hwf as (Hc' & Hl & Hto'). split; [exact Hc'|]. split; [exact Hl|exact Hto'].
      * exact Hv.
      * cbn [dlg].
        change (time_left_int (set_time_left_int _ (dlg s)))
          with (time_left_int (dlg s) - Z.of_nat (List.length front))%Z.
        lia.
      * split; assumption.
    + intros srv' Hin. apply Hheld'. apply in_or_app. left. exact Hin.
    + lia.
Qed.

Lemma created_session_times_out_at_seed_witness :
  option_map
    (fun s => state_of (run_ticks (repeat (store_with (VStr "1000") VNone 1598) 2) s))
    (session_of (show_timeout_wait_dialog (store_with (VStr "1000") VNone 1598)
                   tx_ok wallet_2of2 7 []))
  = Some TimedOut.
Proof.
  cbn [option_map].
  change (session_of (show_timeout_wait_dialog (store_with (VStr "1000") VNone 1598)
                        tx_ok wallet_2of2 7 []))
    with (Some (mk_session (mk_dialog 7 [("h1", VStr "1000")] VNone false ["h0"] ["h1"]
                                      2 true true) [7%nat])).
  cbn [option_map]. apply (f_equal Some).
  apply (proj2 (proj2 (created_session_times_out_at_seed
           (store_with (VStr "1000") VNone 1598) tx_ok wallet_2of2 7 []
           (mk_dialog 7 [("h1", VStr "1000")] VNone false ["h0"] ["h1"] 2 false false)
           (repeat (store_with (VStr "1000") VNone 1598) 2)
           (mk_session (mk_dialog 7 [("h1", VStr "1000")] VNone false ["h0"] ["h1"]
                                  2 true true) [7%nat])
           ltac:(intros []) eq_refl eq_refl
           ltac:(intros srv' Hin; apply repeat_spec in Hin; subst srv'; reflexivity)
           eq_refl))).
  - simpl. lia.
  - reflexivity.
Defined.

(** ** A name that is a number *)



